(** * ipfx.nwb_reader: reading sweeps from the three NWB dialects

    A shallow embedding of [src/ipfx/nwb_reader.py] and the properties of its
    readers.

    Conventions of the embedding.
    - Python's exceptions are values: every operation that can raise returns a
      [result], and [try]/[except] is a match on the exception.
    - An HDF5 file is a tree of groups and datasets with attributes; the
      payloads are those the NWB schema knows: text, integers, floats and
      one-dimensional arrays of them.  h5py reads a text either as a Python
      [str] or as [bytes], by the way the file stores it, and the code
      treats the two differently: they are two constructors, [VStr] and
      [VBytes] (arrays: [VStrs] and [VByteStrs]).  Where the code computes
      with a payload (sample arrays, start indices and counts), the model
      reads it at the type the schema gives it and reports any other payload
      as [TypeError]; the theorems say nothing about what numpy would make
      of such a file.
    - A numeric payload carries its numpy dtype.  A start index or a count
      is a numpy integer of some width, signed or not; [start + count - 1]
      is the exact integer as long as no step can leave the range of the
      operands, and otherwise what numpy's promotion and wrap-around make of
      it.  An array of float64 is computed with binary64 ([PrimFloat]), the
      type of Python's [float]; the products of arrays of another dtype are
      numpy's own, in the precision numpy chooses.
    - Python's builtins [int], [float] and [str], [json.loads], the epoch
      routines of [ipfx.stim_features] and the arithmetic of numpy beyond
      the cases above are not code of this module: they are the fields of
      the class [External], and every definition and theorem is stated for
      an arbitrary instance. *)

From Stdlib Require Import ZArith String Ascii List Floats Lia.
From stdpp Require Import base option list gmap strings pretty sorting.

Set Warnings "-register-all".
#[local] Open Scope string_scope.
#[local] Open Scope Z_scope.

(** ** Python: exceptions and results *)

Module Py.

(** The [ValueError]s, told apart by the place that raises them. *)
Inductive value_error :=
  | UnitNotRecognized (unit : string)   (* get_long_unit_name *)
  | NoTimeSeriesFound                   (* NwbXReader: no series for the sweep *)
  | UnexpectedChannelNumber (n : Z)     (* NwbXReader: channel not 1 or 5 *)
  | MultipleResponse                    (* NwbXReader: second response series *)
  | MultipleStimulus                    (* NwbXReader: second stimulus series *)
  | UnexpectedTimeSeries                (* NwbXReader: series of another class *)
  | NoStimulus                          (* NwbXReader: no stimulus series *)
  | NoResponse                          (* NwbXReader: no response series *)
  | UnknownStimulusUnit                 (* NwbPipelineReader *)
  | UnknownClampMode                    (* NwbMiesReader *)
  | InvalidLiteral                      (* int() of a string that is no number *)
  | FieldNamesOnlyForCompound.          (* h5py: a dataset indexed by a name *)

Inductive exn :=
  | KeyError
  | IndexError
  | TypeError
  | AttributeError
  | AssertionError
  | UnboundLocalError (var : string)
  | ValueError (e : value_error).

Inductive result (A : Type) :=
  | Ok (a : A)
  | Raise (e : exn).
Arguments Ok {A} a.
Arguments Raise {A} e.

#[global] Instance result_ret : MRet result := @Ok.
#[global] Instance result_bind : MBind result :=
  fun A B f m => match m with Ok a => f a | Raise e => Raise e end.

(** [try: body except KeyError: handler] *)
Definition except_KeyError {A} (body handler : result A) : result A :=
  match body with
  | Raise KeyError => handler
  | r => r
  end.

(** [try: body except: handler] *)
Definition except_any {A} (body handler : result A) : result A :=
  match body with
  | Raise _ => handler
  | r => r
  end.

(** [assert cond] *)
Definition assert (cond : bool) : result unit :=
  if cond then Ok tt else Raise AssertionError.

(** [s.startswith(p)] and [re.match] of a pattern without operators (or with
    a leading [^] only): both test a prefix. *)
Definition startswith (s p : string) : bool := String.prefix p s.

(** [needle in s] on strings. *)
Definition substring_of (needle s : string) : bool :=
  match String.index 0 needle s with
  | Some _ => true
  | None => false
  end.

(** [s.split(c)]: the pieces of [s] between the occurrences of [c]; never
    empty. *)
Fixpoint split (c : ascii) (s : string) : list string :=
  match s with
  | EmptyString => [EmptyString]
  | String a s' =>
      if Ascii.eqb a c then EmptyString :: split c s'
      else match split c s' with
           | piece :: pieces => String a piece :: pieces
           | [] => [String a EmptyString]
           end
  end.

(** ["%d" % n] and ["%05d" % n] (zero padding to five characters, the sign
    included). *)
Definition fmt_d (n : Z) : string := pretty n.

Fixpoint zeros (k : nat) : string :=
  match k with
  | O => EmptyString
  | S k' => String "0" (zeros k')
  end.

Definition fmt_05d (n : Z) : string :=
  let digits := pretty (Z.abs n) in
  if n <? 0
  then "-" +:+ zeros (4 - String.length digits)%nat +:+ digits
  else zeros (5 - String.length digits)%nat +:+ digits.

(** [s[-5:] == suffix] and [s[:-5]] for a five-character [suffix]: the test
    of the last characters, and the string without them. *)
Definition endswith (s suffix : string) : bool :=
  let n := String.length s in
  let k := String.length suffix in
  String.eqb (String.substring (n - k)%nat k s) suffix.

Definition drop_last (k : nat) (s : string) : string :=
  String.substring 0 (String.length s - k)%nat s.

(** [l[i]] for a list: a negative index counts from the end, an index out
    of range is an [IndexError]. *)
Definition list_index {A} (l : list A) (i : Z) : result A :=
  let n := Z.of_nat (length l) in
  let j := if i <? 0 then i + n else i in
  if (0 <=? j) && (j <? n)
  then match l !! Z.to_nat j with
       | Some x => Ok x
       | None => Raise IndexError
       end
  else Raise IndexError.

(** Whether the character [c] occurs in [s]. *)
Fixpoint has_char (c : ascii) (s : string) : bool :=
  match s with
  | EmptyString => false
  | String a s' => Ascii.eqb a c || has_char c s'
  end.

End Py.
Export Py.

(** ** numpy: dtypes and arrays *)

Module Np.

Inductive float_dtype := Float16 | Float32 | Float64.

Inductive int_dtype :=
  | Int8 | Int16 | Int32 | Int64
  | UInt8 | UInt16 | UInt32 | UInt64.

Inductive dtype :=
  | Floating (t : float_dtype)
  | Integer (t : int_dtype).

(** A numeric array of one dimension: its dtype and its elements.  The
    elements of a floating array are held as binary64, which represents
    every float16 and float32 exactly. *)
Inductive ndarray :=
  | Floats (t : float_dtype) (a : list float)
  | Ints (t : int_dtype) (a : list Z).

(** [len(a)] *)
Definition len (a : ndarray) : nat :=
  match a with
  | Floats _ l => length l
  | Ints _ l => length l
  end.

(** The largest integer of a dtype. *)
Definition int_max (t : int_dtype) : Z :=
  match t with
  | Int8 => 127
  | Int16 => 32767
  | Int32 => 2147483647
  | Int64 => 9223372036854775807
  | UInt8 => 255
  | UInt16 => 65535
  | UInt32 => 4294967295
  | UInt64 => 18446744073709551615
  end.

(** When [s + c - 1], for numpy integers [s] of dtype [t1] and [c] of dtype
    [t2], is the exact integer whatever numpy promotes the operands to:
    neither is negative, and the sum is at least 1, within both dtypes and
    within the integers that float64 holds exactly (numpy computes with
    float64 when an operand is a [uint64] and the other is signed). *)
Definition exact_sum (t1 : int_dtype) (s : Z) (t2 : int_dtype) (c : Z) : bool :=
  (0 <=? s) && (0 <=? c) && (1 <=? s + c)
  && (s + c <=? int_max t1) && (s + c <=? int_max t2) && (s + c <=? 2 ^ 53).

End Np.
Export Np.

(** ** h5py: groups, datasets and attributes *)

Module H5.

(** What [.value] of a dataset, or an attribute, is read as.  A text stored
    with variable length is read as [str], one stored with fixed length as
    [bytes] ([VBytes s] holds the UTF-8 form of [s]); an integer is a numpy
    integer of the dtype stored; a float, of whatever precision, is held as
    binary64. *)
Inductive h5value :=
  | VStr (s : string)
  | VBytes (s : string)
  | VInt (t : int_dtype) (z : Z)
  | VFloat (x : float)
  | VStrs (a : list string)
  | VByteStrs (a : list string)
  | VArray (a : ndarray).

Inductive node :=
  | Dataset (value : h5value) (attrs : gmap string h5value)
  | Group (members : gmap string node) (attrs : gmap string h5value).

(** An open file is its root group. *)
Record h5file := File {
  root_members : gmap string node;
  root_attrs : gmap string h5value
}.

Definition root (f : h5file) : node := Group (root_members f) (root_attrs f).

(** [n[name]] for a name of one component. *)
Definition getitem (n : node) (name : string) : result node :=
  match n with
  | Group members _ =>
      match members !! name with
      | Some child => Ok child
      | None => Raise KeyError
      end
  | Dataset _ _ => Raise (ValueError FieldNamesOnlyForCompound)
  end.

(** [n["a/b/..."]]: HDF5 resolves the path itself, and a component that is
    missing or lies below a dataset is a [KeyError]. *)
Fixpoint getpath (n : node) (path : list string) : result node :=
  match path with
  | [] => Ok n
  | name :: path' =>
      match n with
      | Group members _ =>
          match members !! name with
          | Some child => getpath child path'
          | None => Raise KeyError
          end
      | Dataset _ _ => Raise KeyError
      end
  end.

(** [n[a][b]...]: one lookup after the other. *)
Fixpoint getitems (n : node) (names : list string) : result node :=
  match names with
  | [] => Ok n
  | name :: names' =>
      match getitem n name with
      | Ok child => getitems child names'
      | Raise e => Raise e
      end
  end.

(** [n.keys()] *)
Definition keys (n : node) : result (gmap string node) :=
  match n with
  | Group members _ => Ok members
  | Dataset _ _ => Raise AttributeError
  end.

(** [n.value] *)
Definition value (n : node) : result h5value :=
  match n with
  | Dataset v _ => Ok v
  | Group _ _ => Raise AttributeError
  end.

Definition attrs (n : node) : gmap string h5value :=
  match n with
  | Dataset _ a => a
  | Group _ a => a
  end.

(** [n.attrs[name]] and [name in n.attrs] *)
Definition attr (n : node) (name : string) : result h5value :=
  match attrs n !! name with
  | Some v => Ok v
  | None => Raise KeyError
  end.

Definition has_attr (n : node) (name : string) : bool :=
  bool_decide (is_Some (attrs n !! name)).

(** [v.value] on what [attrs[name]] returns: attribute values are plain
    strings, numbers and arrays, none of which has a member [value]. *)
Definition attr_value_member (v : h5value) : result h5value :=
  Raise AttributeError.

(** [v.decode('UTF-8')]: a method of [bytes]; a [str], a number and an
    array have none. *)
Definition decode (v : h5value) : result string :=
  match v with
  | VBytes s => Ok s
  | _ => Raise AttributeError
  end.

(** [needle in v] for a [str] [needle] and an attribute value: substring of
    a [str], element of an array of [str].  No element of an array of
    [bytes] or of numbers equals a [str]; [bytes] refuses a [str] needle,
    and a number is not iterable. *)
Definition contains (needle : string) (v : h5value) : result bool :=
  match v with
  | VStr s => Ok (substring_of needle s)
  | VStrs a => Ok (bool_decide (needle ∈ a))
  | VByteStrs _ | VArray _ => Ok false
  | VBytes _ | VInt _ _ | VFloat _ => Raise TypeError
  end.

(** [v[0]] when the value read is an array ([isinstance(v, np.ndarray)] and
    [type(v) is np.ndarray] agree on what h5py returns). *)
Definition first_if_array (v : h5value) : result h5value :=
  match v with
  | VStrs (x :: _) => Ok (VStr x)
  | VByteStrs (x :: _) => Ok (VBytes x)
  | VArray (Floats _ (x :: _)) => Ok (VFloat x)
  | VArray (Ints t (z :: _)) => Ok (VInt t z)
  | VStrs [] | VByteStrs [] | VArray (Floats _ []) | VArray (Ints _ []) =>
      Raise IndexError
  | scalar => Ok scalar
  end.

(** The payload of a sample array, and of a start index or count. *)
Definition samples (v : h5value) : result ndarray :=
  match v with
  | VArray a => Ok a
  | _ => Raise TypeError
  end.

Definition integer (v : h5value) : result (int_dtype * Z) :=
  match v with
  | VInt t z => Ok (t, z)
  | _ => Raise TypeError
  end.

(** The order of names: HDF5 lists the members of a group by name, in
    increasing order of their characters. *)
Definition name_le (a b : string) : Prop := String.leb a b = true.

#[global] Instance name_le_dec (a b : string) : Decision (name_le a b).
Proof. unfold name_le. apply _. Defined.

(** [[e for e in group.keys()]] *)
Definition names {A} (members : gmap string A) : list string :=
  merge_sort name_le (map fst (map_to_list members)).

End H5.
Export H5.

(** ** What the module takes from outside *)

Class External := {
  (** [int(s)] for a string *)
  py_int : string -> result Z;
  (** [float(v)] *)
  py_float : h5value -> result float;
  (** [str(v)] *)
  py_str : h5value -> string;
  (** [json.loads(description)['number']] *)
  description_number : string -> result Z;
  (** [ipfx.stim_features.get_experiment_epoch(i, v, hz)] *)
  get_experiment_epoch : ndarray -> ndarray -> float -> result (Z * Z);
  (** [ipfx.stim_features.get_sweep_epoch(response)] *)
  get_sweep_epoch : ndarray -> result (Z * Z);
  (** numpy, for an array [a] that is not of float64 and a Python float [c]:
      the dtype of [a * c], and the element of [a * c] for an element [x]
      (or [z]) of [a] *)
  np_product_dtype : dtype -> float -> float_dtype;
  np_float_product : float_dtype -> float -> float -> float;
  np_int_product : int_dtype -> Z -> float -> float;
  (** the element of [a] after [a *= c,] for a floating [a] *)
  np_float_iproduct : float_dtype -> float -> float -> float;
  (** [s + c - 1] for numpy integers [s] of dtype [t1] and [c] of dtype
      [t2], as a number *)
  np_last : int_dtype -> Z -> int_dtype -> Z -> Z
}.

(** ** numpy: the arithmetic the readers use *)

Module Numpy.
Section Numpy.
Context `{External}.

(** [a * c] for an array and a Python float: element by element, and never
    an error.  For float64 it is the binary64 product. *)
Definition mul (a : ndarray) (c : float) : ndarray :=
  match a with
  | Floats Float64 l => Floats Float64 (map (fun x => (x * c)%float) l)
  | Floats t l =>
      Floats (np_product_dtype (Floating t) c)
             (map (fun x => np_float_product t x c) l)
  | Ints t l =>
      Floats (np_product_dtype (Integer t) c)
             (map (fun z => np_int_product t z c) l)
  end.

(** [a *= c,] for a Python float [c]: the tuple of one element is read as
    an array of float64 and broadcast against [a]; the products are stored
    in place, in the dtype of [a], which an array of integers refuses. *)
Definition imul (a : ndarray) (c : float) : result ndarray :=
  match a with
  | Floats Float64 l => Ok (Floats Float64 (map (fun x => (x * c)%float) l))
  | Floats t l => Ok (Floats t (map (fun x => np_float_iproduct t x c) l))
  | Ints _ _ => Raise TypeError
  end.

(** [s + c - 1] for two numpy integers. *)
Definition last (t1 : int_dtype) (s : Z) (t2 : int_dtype) (c : Z) : Z :=
  if exact_sum t1 s t2 c then s + c - 1 else np_last t1 s t2 c.

End Numpy.
End Numpy.

(** [1.0 * v] for an attribute value *)
Definition times_one `{External} (v : h5value) : result float :=
  match v with
  | VFloat x => Ok (1 * x)%float
  | VInt _ _ => x ← py_float v; Ok (1 * x)%float
  | _ => Raise TypeError
  end.

(** The record every reader returns. *)
Record sweep_data := SweepData {
  stimulus : ndarray;
  response : ndarray;
  stimulus_unit : string;
  index_range : Z * Z;
  sampling_rate : float
}.

(** The invariant the specification gives for [index_range]:
    [0 <= start <= end < len(stimulus)]. *)
Definition valid_index_range (out : sweep_data) : Prop :=
  0 <= fst (index_range out) <= snd (index_range out)
  /\ snd (index_range out) < Z.of_nat (Np.len (stimulus out)).

(** ** get_long_unit_name *)

Definition get_long_unit_name (unit : string) : result string :=
  if startswith unit "A" then Ok "Amps"
  else if startswith unit "V" then Ok "Volts"
  else Raise (ValueError (UnitNotRecognized unit)).

(** ** NwbReader *)

Module NwbReader.
Section NwbReader.
Context `{External}.

(** The loop of [get_pipeline_version] over the entries of a [generated_by]
    that holds [str]: [Some version] when an entry equal to ['version'] is
    met (the entry after it is the version, and reading past the end is an
    [IndexError]), [None] when the loop ends and leaves [version] unbound. *)
Fixpoint find_version (info : list string) : result (option string) :=
  match info with
  | [] => Ok None
  | entry :: info' =>
      if String.eqb entry "version"
      then match info' with
           | version :: _ => Ok (Some version)
           | [] => Raise IndexError
           end
      else find_version info'
  end.

(** [len(info)] and the loop for whatever [general/generated_by] is: an array
    of [str] is searched, no element of an array of [bytes] or of numbers
    equals the [str] ['version'], a scalar has no [len], a group has no
    member at index 0. *)
Definition scan_generated_by (info : node) : result (option string) :=
  match info with
  | Dataset (VStrs a) _ => find_version a
  | Dataset (VByteStrs _) _ | Dataset (VArray _) _ => Ok None
  | Dataset _ _ => Raise TypeError
  | Group members _ =>
      if bool_decide (members = ∅) then Ok None else Raise TypeError
  end.

(** The body of the [try]: [Some (major, minor)] when it binds them, [None]
    when it runs to its end without binding them ([toks] has fewer than two
    elements).  Testing ['generated_by' in] a dataset iterates over it; if
    that finds the name, the lookup of the path fails, if not, [version] is
    unbound, so the body raises there in every case. *)
Definition pipeline_version_body (f : h5file) : result (option (Z * Z)) :=
  general ← getitem (root f) "general";
  present ← (match general with
             | Group members _ => Ok (bool_decide (is_Some (members !! "generated_by")))
             | Dataset _ _ => Raise TypeError
             end);
  version ← (if present : bool
             then info ← getpath (root f) ["general"; "generated_by"];
                  scan_generated_by info
             else Ok None);
  match version with
  | None => Raise (UnboundLocalError "version")
  | Some version =>
      let toks := split "." version in
      if (2 <=? length toks)%nat
      then major ← py_int (nth 0 toks "");
           minor ← py_int (nth 1 toks "");
           Ok (Some (major, minor))
      else Ok None
  end.

(** The [except] clause binds both to 0 after any exception of the body;
    the [return] after the [try] reads them, bound or not. *)
Definition get_pipeline_version (f : h5file) : result (Z * Z) :=
  bound ← except_any (pipeline_version_body f) (Ok (Some (0, 0)));
  match bound with
  | Some (major, minor) => Ok (major, minor)
  | None => Raise (UnboundLocalError "major")
  end.


(** [entry in ("data", "electrode")] *)
Definition skipped_entry (entry : string) : Prop :=
  entry = "data" \/ entry = "electrode".

#[global] Instance skipped_entry_dec (entry : string) :
  Decision (skipped_entry entry).
Proof. unfold skipped_entry. apply _. Defined.

(** The loop of [get_sweep_attrs] over the entries of the sweep: the value
    of every entry but [data] and [electrode] is stored under its name. *)
Fixpoint add_entries (sweep_ts : node) (entries : list string)
    (attrs : gmap string h5value) : result (gmap string h5value) :=
  match entries with
  | [] => Ok attrs
  | entry :: entries' =>
      if bool_decide (skipped_entry entry)
      then add_entries sweep_ts entries' attrs
      else child ← getitem sweep_ts entry;
           v ← value child;
           add_entries sweep_ts entries' (<[entry := v]> attrs)
  end.

(** [get_sweep_attrs] of a reader with the given [nwb_major_version]. *)
Definition get_sweep_attrs (nwb_major_version : Z) (f : h5file)
    (sweep_name : string) : result (gmap string h5value) :=
  timeseries ← getpath (root f) ["acquisition"; "timeseries"];
  sweep_ts ← getitem timeseries sweep_name;
  let attrs := attrs sweep_ts in
  if nwb_major_version =? 2
  then members ← keys sweep_ts;
       add_entries sweep_ts (names members) attrs
  else Ok attrs.

End NwbReader.
End NwbReader.

(** ** pynwb: the objects NWBHDF5IO reads from a version 2 file *)

Module Pynwb.

(** The classes of [pynwb.icephys] and their base classes. *)
Inductive series_class :=
  | TimeSeries
  | PatchClampSeries
  | CurrentClampSeries
  | IZeroClampSeries
  | CurrentClampStimulusSeries
  | VoltageClampSeries
  | VoltageClampStimulusSeries.

Record series := Series {
  cls : series_class;
  description : string;
  data : ndarray;
  conversion : float;
  unit : string;
  rate : option float
}.

(** [s.num_samples]: the length of the data. *)
Definition num_samples (s : series) : Z := Z.of_nat (Np.len (data s)).

Record nwbfile := NWBFile {
  experiment_description : option string;
  (** the rows of the sweep table: a sweep number and a series *)
  sweep_table : option (list (Z * series))
}.

(** [sweep_table.get_series(sweep_number)]: the series of the rows with that
    number, [None] when there is none. *)
Definition get_series (table : list (Z * series)) (sweep_number : Z)
  : option (list series) :=
  match map snd (filter (fun row => fst row = sweep_number) table) with
  | [] => None
  | matches => Some matches
  end.

End Pynwb.
Export Pynwb.

(** ** NwbXReader *)

Module NwbXReader.
Section NwbXReader.
Context `{External}.

(** [isinstance(s, (VoltageClampSeries, CurrentClampSeries, IZeroClampSeries))] *)
Definition is_response_series (s : series) : bool :=
  match cls s with
  | VoltageClampSeries | CurrentClampSeries | IZeroClampSeries => true
  | _ => false
  end.

(** [isinstance(s, (VoltageClampStimulusSeries, CurrentClampStimulusSeries))] *)
Definition is_stimulus_series (s : series) : bool :=
  match cls s with
  | VoltageClampStimulusSeries | CurrentClampStimulusSeries => true
  | _ => false
  end.

Record raw_data_source := RawDataSource {
  abf : bool;
  dat : bool;
  unknown : bool
}.

Definition getRawDataSourceType (experiment_description : string)
  : raw_data_source :=
  if startswith experiment_description "PatchMaster"
  then RawDataSource false true false
  else if startswith experiment_description "Clampex"
  then RawDataSource true false false
  else RawDataSource false false true.

(** What the loop has bound so far: [response], and [stimulus] with the
    three variables assigned together with it. *)
Record stimulus_vars := StimulusVars {
  stimulus_array : ndarray;
  stimulus_unit_name : string;
  stimulus_rate : float;
  stimulus_index_range : Z * Z
}.

(** The channel test of an ABF series: [true] when the series is skipped
    ([continue]). *)
Definition skipped (rawDataSourceType : raw_data_source) (s : series)
  : result bool :=
  if abf rawDataSourceType
  then channel_number ← description_number (description s);
       if negb (bool_decide (channel_number = 1 ∨ channel_number = 5))
       then Raise (ValueError (UnexpectedChannelNumber channel_number))
       else Ok (bool_decide (channel_number = 5))
  else Ok false.

(** [for s in series: ...] *)
Fixpoint scan_series (rawDataSourceType : raw_data_source) (series : list series)
    (response : option ndarray) (stimulus : option stimulus_vars)
  : result (option ndarray * option stimulus_vars) :=
  match series with
  | [] => Ok (response, stimulus)
  | s :: series' =>
      skip ← skipped rawDataSourceType s;
      if skip : bool then scan_series rawDataSourceType series' response stimulus
      else if is_response_series s then
        match response with
        | Some _ => Raise (ValueError MultipleResponse)
        | None =>
            scan_series rawDataSourceType series'
              (Some (Numpy.mul (data s) (conversion s))) stimulus
        end
      else if is_stimulus_series s then
        match stimulus with
        | Some _ => Raise (ValueError MultipleStimulus)
        | None =>
            stimulus_unit ← get_long_unit_name (unit s);
            stimulus_rate ← (match rate s with
                             | Some r => Ok r
                             | None => Raise TypeError
                             end);
            scan_series rawDataSourceType series' response
              (Some (StimulusVars (Numpy.mul (data s) (conversion s))
                       stimulus_unit stimulus_rate (0, num_samples s - 1)))
        end
      else Raise (ValueError UnexpectedTimeSeries)
  end.

(** The source format of the file and the series of the sweep: what
    [get_sweep_data] has before its loop. *)
Definition sweep_series (nwb : nwbfile) (sweep_number : Z)
  : result (raw_data_source * list series) :=
  experiment_description ← (match experiment_description nwb with
                            | Some d => Ok d
                            | None => Raise AttributeError
                            end);
  let rawDataSourceType := getRawDataSourceType experiment_description in
  _ ← assert (negb (unknown rawDataSourceType));
  table ← (match sweep_table nwb with
           | Some t => Ok t
           | None => Raise AttributeError
           end);
  match get_series table sweep_number with
  | None => Raise (ValueError NoTimeSeriesFound)
  | Some series => Ok (rawDataSourceType, series)
  end.

(** [sweep_number] is an integer here, so the [isinstance] test at the
    start of the method passes. *)
Definition get_sweep_data (nwb : nwbfile) (sweep_number : Z) : result sweep_data :=
  '(rawDataSourceType, series) ← sweep_series nwb sweep_number;
  '(response, stimulus) ← scan_series rawDataSourceType series None None;
  match stimulus, response with
  | None, _ => Raise (ValueError NoStimulus)
  | Some _, None => Raise (ValueError NoResponse)
  | Some st, Some response =>
      _ ← assert (Np.len (stimulus_array st) =? Np.len response)%nat;
      Ok (SweepData (stimulus_array st) response (stimulus_unit_name st)
            (stimulus_index_range st) (stimulus_rate st))
  end.

(** 1 for a variable of the loop that is bound, 0 for [None]. *)
Definition bound {A} (o : option A) : nat :=
  match o with
  | Some _ => 1%nat
  | None => 0%nat
  end.

(** The series of a sweep that the channel test keeps: the ones the loop
    classifies. *)
Definition retained (rawDataSourceType : raw_data_source)
    (sweep : list series) : list series :=
  List.filter (fun s => match skipped rawDataSourceType s with
                        | Ok false => true
                        | _ => false
                        end) sweep.

(** [d[key]] for the dictionary [get_sweep_attrs] returns. *)
Definition dict_getitem (d : gmap string h5value) (key : string)
  : result h5value :=
  match d !! key with
  | Some v => Ok v
  | None => Raise KeyError
  end.

Definition get_sweep_number (f : h5file) (sweep_name : string) : result h5value :=
  attrs ← NwbReader.get_sweep_attrs 2 f sweep_name;
  dict_getitem attrs "sweep_number".

Definition get_stim_code (f : h5file) (sweep_name : string) : result h5value :=
  attrs ← NwbReader.get_sweep_attrs 2 f sweep_name;
  dict_getitem attrs "stimulus_description".

End NwbXReader.
End NwbXReader.

(** ** The stimulus code of a sweep (both version 1 readers) *)

Section StimCode.
Context `{External}.

(** [get_stim_code] of [NwbPipelineReader] and [NwbMiesReader], which differ
    in the name of the description entry only.  [stim_code] is bound inside
    the [if]: [None] stands for the variable left unbound. *)
Definition read_stim_code (stimulus_description : string) (f : h5file)
    (sweep_name : string) : result string :=
  timeseries ← getpath (root f) ["acquisition"; "timeseries"];
  sweep_ts ← getitem timeseries sweep_name;
  names ← keys sweep_ts;
  stim_code ← (if bool_decide (is_Some (names !! stimulus_description))
               then entry ← getitem sweep_ts stimulus_description;
                    stim_code_raw ← value entry;
                    stim_code_raw ← first_if_array stim_code_raw;
                    let stim_code := py_str stim_code_raw in
                    Ok (Some (if endswith stim_code "_DA_0"
                              then drop_last 5 stim_code
                              else stim_code))
               else Ok None);
  match stim_code with
  | Some stim_code => Ok stim_code
  | None => Raise (UnboundLocalError "stim_code")
  end.

End StimCode.

(** ** NwbPipelineReader *)

Module NwbPipelineReader.
Section NwbPipelineReader.
Context `{External}.

(** What [get_sweep_data] has looked up before it reads the version. *)
Record sweep_datasets := SweepDatasets {
  swp : node;
  stimulus_dataset : node;
  stimulus_conversion : float;
  response_dataset : node;
  response_conversion : float
}.

Definition locate (f : h5file) (sweep_number : Z) : result sweep_datasets :=
  epochs ← getitem (root f) "epochs";
  swp ← getitem epochs ("Sweep_" +:+ fmt_d sweep_number);
  stimulus_dataset ← getitems swp ["stimulus"; "timeseries"; "data"];
  conversion ← attr stimulus_dataset "conversion";
  stimulus_conversion ← py_float conversion;
  response_dataset ← getitems swp ["response"; "timeseries"; "data"];
  conversion ← attr response_dataset "conversion";
  response_conversion ← py_float conversion;
  Ok (SweepDatasets swp stimulus_dataset stimulus_conversion
        response_dataset response_conversion).

(** [(major == 1 and minor > 0) or major > 1] *)
Definition converts (major minor : Z) : bool :=
  ((major =? 1) && (0 <? minor)) || (1 <? major).

(** [dataset.value] of a sample array. *)
Definition sample_array (dataset : node) : result ndarray :=
  v ← value dataset; samples v.

(** The arrays, with the conversion factors applied for the newer files. *)
Definition convert (major minor : Z) (d : sweep_datasets)
  : result (ndarray * ndarray) :=
  if converts major minor
  then stimulus ← sample_array (stimulus_dataset d);
       response ← sample_array (response_dataset d);
       Ok (Numpy.mul stimulus (stimulus_conversion d),
           Numpy.mul response (response_conversion d))
  else stimulus ← sample_array (stimulus_dataset d);
       response ← sample_array (response_dataset d);
       Ok (stimulus, response).

Definition unit_name (stimulus_dataset : node) : result string :=
  if has_attr stimulus_dataset "unit"
  then unit ← attr stimulus_dataset "unit";
       unit ← decode unit;
       get_long_unit_name unit
  else Ok "Unknown".

(** The change to mV and pA: [response *= 1e3,] and its like multiply in
    place by a tuple of one element. *)
Definition rescale (unit_str : string) (stimulus response : ndarray)
  : result (ndarray * ndarray) :=
  if String.eqb unit_str "Amps"
  then response ← Numpy.imul response 1e3%float;
       stimulus ← Numpy.imul stimulus 1e12%float;
       Ok (stimulus, response)
  else if String.eqb unit_str "Volts"
  then response ← Numpy.imul response 1e12%float;
       stimulus ← Numpy.imul stimulus 1e3%float;
       Ok (stimulus, response)
  else Raise (ValueError UnknownStimulusUnit).

(** [(idx_start, idx_start + count - 1)] of an epoch entry, as both the sweep
    and the experiment declare it: the two values are numpy integers, and
    so is the arithmetic. *)
Definition declared_range (epoch : node) : result (Z * Z) :=
  idx_start ← getitems epoch ["stimulus"; "idx_start"];
  idx_start ← value idx_start;
  length ← getitems epoch ["stimulus"; "count"];
  length ← value length;
  '(start_dtype, idx_start) ← integer idx_start;
  '(length_dtype, length) ← integer length;
  let idx_stop := Numpy.last start_dtype idx_start length_dtype length in
  Ok (idx_start, idx_stop).

(** The body of the [try]: the range of [Experiment_<n>]. *)
Definition experiment_range (f : h5file) (sweep_number : Z) : result (Z * Z) :=
  exp ← getitems (root f) ["epochs"; "Experiment_" +:+ fmt_d sweep_number];
  declared_range exp.

Definition get_sweep_data (f : h5file) (sweep_number : Z) : result sweep_data :=
  d ← locate f sweep_number;
  '(major, minor) ← NwbReader.get_pipeline_version f;
  '(stimulus, response) ← convert major minor d;
  unit_str ← unit_name (stimulus_dataset d);
  '(stimulus, response) ← rescale unit_str stimulus response;
  sweep_index_range ← declared_range (swp d);
  index_range ← except_KeyError (experiment_range f sweep_number)
                                (Ok sweep_index_range);
  _ ← assert (fst sweep_index_range =? 0);
  starting_time ← getitems (swp d) ["stimulus"; "timeseries"; "starting_time"];
  rate ← attr starting_time "rate";
  sampling_rate ← times_one rate;
  Ok (SweepData stimulus response unit_str index_range sampling_rate).

(** [int(sweep_name.split('_')[-1])] *)
Definition get_sweep_number (sweep_name : string) : result Z :=
  tok ← list_index (split "_" sweep_name) (-1);
  py_int tok.

Definition get_stim_code : h5file -> string -> result string :=
  read_stim_code "aibs_stimulus_description".

End NwbPipelineReader.
End NwbPipelineReader.

(** ** NwbMiesReader *)

Module NwbMiesReader.
Section NwbMiesReader.
Context `{External}.

Definition unit_name (stimulus_data : node) : result string :=
  if has_attr stimulus_data "unit"
  then unit ← attr stimulus_data "unit";
       unit ← decode unit;
       let unit_str := if startswith unit "A" then Some "Amps"
                       else if startswith unit "V" then Some "Volts"
                       else None in
       match unit_str with
       | Some unit_str => Ok unit_str
       | None => Raise AssertionError
       end
  else Ok "Unknown".

(** The epoch of the sweep, by the ancestry of the response series. *)
Definition epoch_by_ancestry (sweep_response : node)
    (stimulus response : ndarray) (hz : float) : result (Z * Z) :=
  ancestry ← attr sweep_response "ancestry";
  current_clamp ← contains "CurrentClampSeries" ancestry;
  if current_clamp : bool
  then get_experiment_epoch stimulus response hz
  else ancestry ← attr sweep_response "ancestry";
       voltage_clamp ← contains "VoltageClampSeries" ancestry;
       if voltage_clamp : bool
       then get_sweep_epoch response
       else Raise (ValueError UnknownClampMode).

(** What [get_sweep_data] reads of the sweep before it looks at the unit. *)
Record located := Located {
  sweep_response : node;
  response_array : ndarray;
  hz : float;
  sweep_stimulus : node;
  stimulus_array : ndarray
}.

Definition locate (f : h5file) (sweep_number : Z) : result located :=
  acquisition ← getpath (root f) ["acquisition"; "timeseries"];
  sweep_response ← getitem acquisition ("data_" +:+ fmt_05d sweep_number +:+ "_AD0");
  response ← getitem sweep_response "data";
  response ← value response;
  response ← samples response;
  starting_time ← getitem sweep_response "starting_time";
  rate ← attr starting_time "rate";
  hz ← times_one rate;
  presentation ← getpath (root f) ["stimulus"; "presentation"];
  sweep_stimulus ← getitem presentation ("data_" +:+ fmt_05d sweep_number +:+ "_DA0");
  stimulus ← getitem sweep_stimulus "data";
  stimulus ← value stimulus;
  stimulus ← samples stimulus;
  Ok (Located sweep_response response hz sweep_stimulus stimulus).

Definition get_sweep_data (f : h5file) (sweep_number : Z) : result sweep_data :=
  l ← locate f sweep_number;
  stimulus_data ← getitem (sweep_stimulus l) "data";
  unit_str ← unit_name stimulus_data;
  index_range ← epoch_by_ancestry (sweep_response l) (stimulus_array l)
                   (response_array l) (hz l);
  Ok (SweepData (stimulus_array l) (response_array l) unit_str index_range (hz l)).

(** [int(sweep_name.split('_')[1])] *)
Definition get_sweep_number (sweep_name : string) : result Z :=
  tok ← list_index (split "_" sweep_name) 1;
  py_int tok.

Definition get_stim_code : h5file -> string -> result string :=
  read_stim_code "stimulus_description".

End NwbMiesReader.
End NwbMiesReader.

(** ** get_nwb_version *)

Record nwb_version := NwbVersion {
  major : option Z;
  full : option string
}.

(** [re.match(pattern, v)] for a [str] pattern, a prefix test, on what was
    read as the version: a [str] is searched; [bytes] cannot be matched
    against a [str] pattern, and anything else is no text at all: both are a
    [TypeError]. *)
Definition re_match_prefix (pattern : string) (v : h5value) : result bool :=
  match v with
  | VStr s => Ok (startswith s pattern)
  | _ => Raise TypeError
  end.

Definition full_of (v : h5value) : option string :=
  match v with
  | VStr s => Some s
  | _ => None
  end.

Definition get_nwb_version (f : h5file) : result nwb_version :=
  if bool_decide (is_Some (root_members f !! "nwb_version"))
  then entry ← getitem (root f) "nwb_version";
       nwb_version ← value entry;
       nwb_version ← first_if_array nwb_version;
       matched ← re_match_prefix "NWB-1" nwb_version;
       if matched : bool
       then Ok (NwbVersion (Some 1) (full_of nwb_version))
       else Ok (NwbVersion None None)
  else if bool_decide (is_Some (root_attrs f !! "nwb_version"))
  then attribute ← attr (root f) "nwb_version";
       nwb_version ← attr_value_member attribute;
       matched ← re_match_prefix "2" nwb_version;
       if matched : bool
       then Ok (NwbVersion (Some 2) (full_of nwb_version))
       else Ok (NwbVersion None None)
  else Ok (NwbVersion None None).

(** ** create_nwb_reader *)

(** The class of the reader created. *)
Inductive reader_class :=
  | XReader          (* NwbXReader *)
  | MiesReader       (* NwbMiesReader *)
  | PipelineReader.  (* NwbPipelineReader *)

(** How [create_nwb_reader] fails: with an exception of what it calls, or
    with one of its own two [ValueError]s. *)
Inductive factory_error :=
  | Propagated (e : exn)
  | UnknownSweepNamingConvention
  | UnsupportedNwbVersion (major : option Z) (full : option string).

Inductive created :=
  | Reader (r : reader_class)
  | Fails (e : factory_error).

(** [sweep_names[0].split('_')[0]] for the entries of
    [acquisition/timeseries]. *)
Definition sweep_naming_convention (f : h5file) : result string :=
  timeseries ← getpath (root f) ["acquisition"; "timeseries"];
  members ← keys timeseries;
  let sweep_names := names members in
  first ← list_index sweep_names 0;
  list_index (split "_" first) 0.

(** The constructors of the three readers pass 1 or 2 to
    [NwbReader.__init__], which accepts both. *)
Definition create_nwb_reader (f : h5file) : created :=
  match get_nwb_version f with
  | Raise e => Fails (Propagated e)
  | Ok nwb_version =>
      if bool_decide (major nwb_version = Some 2) then Reader XReader
      else if bool_decide (major nwb_version = Some 1) then
        match sweep_naming_convention f with
        | Raise e => Fails (Propagated e)
        | Ok convention =>
            if String.eqb convention "data" then Reader MiesReader
            else if String.eqb convention "Sweep" then Reader PipelineReader
            else Fails UnknownSweepNamingConvention
        end
      else Fails (UnsupportedNwbVersion (major nwb_version) (full nwb_version))
  end.

(** ** Example files

    One instance of [External] and a few small files, for the examples that
    run the readers. *)

Module Demo.

Definition digit (a : ascii) : option Z :=
  let n := Z.of_N (N_of_ascii a) - 48 in
  if (0 <=? n) && (n <=? 9) then Some n else None.

Fixpoint digits (s : string) (acc : Z) : option Z :=
  match s with
  | EmptyString => Some acc
  | String a s' =>
      match digit a with
      | Some d => digits s' (10 * acc + d)
      | None => None
      end
  end.

(** [int] of a string of decimal digits; every other string is refused. *)
Definition decimal (s : string) : result Z :=
  match s with
  | EmptyString => Raise (ValueError InvalidLiteral)
  | _ => match digits s 0 with
         | Some z => Ok z
         | None => Raise (ValueError InvalidLiteral)
         end
  end.

(** The value of [x] rounded to the precision of a dtype (to nearest, ties
    to even), and the float64 nearest to an integer. *)
Definition round_to (t : float_dtype) (x : float) : float :=
  match t with
  | Float16 => SF2Prim (SFmul 11 16 (Prim2SF x) (Prim2SF 1))
  | Float32 => SF2Prim (SFmul 24 128 (Prim2SF x) (Prim2SF 1))
  | Float64 => x
  end.

Definition float_of_int (z : Z) : float :=
  SF2Prim (binary_normalize 53 1024 z 0 false).

(** The integers of numpy: width, sign, wrap-around, and the dtype two
    integer dtypes promote to ([None]: float64, for a [uint64] with a
    signed integer). *)
Definition bits (t : int_dtype) : Z :=
  match t with
  | Int8 | UInt8 => 8
  | Int16 | UInt16 => 16
  | Int32 | UInt32 => 32
  | Int64 | UInt64 => 64
  end.

Definition signed (t : int_dtype) : bool :=
  match t with
  | Int8 | Int16 | Int32 | Int64 => true
  | UInt8 | UInt16 | UInt32 | UInt64 => false
  end.

Definition wrap (t : int_dtype) (z : Z) : Z :=
  if signed t
  then (z + 2 ^ (bits t - 1)) mod 2 ^ bits t - 2 ^ (bits t - 1)
  else z mod 2 ^ bits t.

Definition int_dtype_of (sign : bool) (width : Z) : option int_dtype :=
  if width <=? 8 then Some (if sign then Int8 else UInt8)
  else if width <=? 16 then Some (if sign then Int16 else UInt16)
  else if width <=? 32 then Some (if sign then Int32 else UInt32)
  else if width <=? 64 then Some (if sign then Int64 else UInt64)
  else None.

Definition promote (t1 t2 : int_dtype) : option int_dtype :=
  match signed t1, signed t2 with
  | true, true => int_dtype_of true (Z.max (bits t1) (bits t2))
  | false, false => int_dtype_of false (Z.max (bits t1) (bits t2))
  | true, false =>
      int_dtype_of true (if bits t2 <? bits t1 then bits t1 else 2 * bits t2)
  | false, true =>
      int_dtype_of true (if bits t1 <? bits t2 then bits t2 else 2 * bits t1)
  end.

(** [s + c - 1] as numpy 1 computes it on Linux: the sum in the dtype the
    operands promote to, with wrap-around; then the difference with the
    Python integer 1, which counts as an [int64].  Where the result is a
    float64 the exact integer stands for it. *)
Definition last_index (t1 : int_dtype) (s : Z) (t2 : int_dtype) (c : Z) : Z :=
  match promote t1 t2 with
  | None => s + c - 1
  | Some t =>
      let sum := wrap t (s + c) in
      match promote t Int64 with
      | None => sum - 1
      | Some t' => wrap t' (sum - 1)
      end
  end.

(** The instance: [float] of a float, [str] of a text, a series
    description that is its channel number in digits, epoch routines that
    return the whole array, and the arithmetic of numpy with the products
    of a float16 or float32 array computed in the precision of the array,
    and those of an array of integers in float64. *)
#[local] Instance plain : External := {
  py_int := decimal;
  py_float v := match v with VFloat x => Ok x | _ => Raise TypeError end;
  py_str v := match v with
              | VStr s => s
              | VBytes s => "b'" +:+ s +:+ "'"
              | _ => EmptyString
              end;
  description_number := decimal;
  get_experiment_epoch i v hz := Ok (0, Z.of_nat (Np.len i) - 1);
  get_sweep_epoch v := Ok (0, Z.of_nat (Np.len v) - 1);
  np_product_dtype d c := match d with
                          | Floating t => t
                          | Integer _ => Float64
                          end;
  np_float_product t x c := round_to t (x * round_to t c)%float;
  np_int_product t z c := (float_of_int z * c)%float;
  np_float_iproduct t x c := round_to t (x * c)%float;
  np_last := last_index
}.

Definition group (members : list (string * node)) : node :=
  Group (list_to_map members) ∅.

Definition scalar (v : h5value) : node := Dataset v ∅.

(** An array of float64. *)
Definition float64 (a : list float) : ndarray := Floats Float64 a.

(** A sample array with its conversion factor and, if any, its unit. *)
Definition samples_with (a : ndarray) (conversion : float)
    (unit : option h5value) : node :=
  Dataset (VArray a)
    (list_to_map (("conversion", VFloat conversion) ::
                  match unit with
                  | Some u => [("unit", u)]
                  | None => []
                  end)).

(** The same for an array of float64 and a unit stored as [bytes]. *)
Definition sample_dataset (a : list float) (conversion : float)
    (unit : option string) : node :=
  samples_with (float64 a) conversion
    (match unit with
     | Some u => Some (VBytes u)
     | None => None
     end).

(** An entry of [epochs], a sweep or an experiment, with the start index
    and the count given. *)
Definition epoch_with (stimulus response : node) (idx_start count : h5value)
  : node :=
  group [("stimulus",
          group [("timeseries",
                  group [("data", stimulus);
                         ("starting_time",
                          Dataset (VFloat 0) {[ "rate" := VFloat 200000 ]})]);
                 ("idx_start", scalar idx_start);
                 ("count", scalar count)]);
         ("response", group [("timeseries", group [("data", response)])])].

(** The same with a start index and a count of [int64]. *)
Definition epoch (stimulus response : node) (idx_start count : Z) : node :=
  epoch_with stimulus response (VInt Int64 idx_start) (VInt Int64 count).

(** A file of the pipeline with the given [generated_by] and epochs. *)
Definition pipeline_file (generated_by : list string)
    (epochs : list (string * node)) : h5file :=
  File (list_to_map [("general",
                      group [("generated_by", scalar (VStrs generated_by))]);
                     ("epochs", group epochs)]) ∅.

(** A pipeline file with sweep 7 only: two stimulus samples in Amps with
    conversion factor 0.5, the given response samples with factor 2, and a
    sweep of [count] samples from index 0. *)
Definition sweep7 (response : list float) (count : Z) : node :=
  epoch (sample_dataset [1; 2]%float 0.5 (Some "Amps"))
        (sample_dataset response 2 None) 0 count.

Definition sweep7_file (generated_by : list string) : h5file :=
  pipeline_file generated_by [("Sweep_7", sweep7 [3; 4]%float 2)].

(** The same with an experiment of one sample at index 1. *)
Definition experiment7_file : h5file :=
  pipeline_file ["version"; "1.1"]
    [("Sweep_7", sweep7 [3; 4]%float 2);
     ("Experiment_7",
      epoch (sample_dataset [2]%float 0.5 (Some "Amps"))
            (sample_dataset [4]%float 2 None) 1 1)].

(** Sweep 7 with three response samples for two stimulus samples. *)
Definition unequal_file : h5file :=
  pipeline_file ["version"; "1.0"] [("Sweep_7", sweep7 [3; 4; 5]%float 2)].

(** Sweep 7 declared five samples long, with two samples stored. *)
Definition overlong_file : h5file :=
  pipeline_file ["version"; "1.0"] [("Sweep_7", sweep7 [3; 4]%float 5)].

(** A file converted from ABF: sweep 7 has a current clamp response and its
    stimulus on channel 1, and a feedback series on channel 5. *)
Definition response7 : series :=
  Series CurrentClampSeries "1" (float64 [3; 4]%float) 2 "V"
         (Some 20000%float).

Definition stimulus7 : series :=
  Series CurrentClampStimulusSeries "1" (float64 [1; 2]%float) 0.5 "A"
         (Some 20000%float).

Definition feedback7 : series :=
  Series CurrentClampSeries "5" (float64 [0; 0]%float) 1 "V"
         (Some 20000%float).

Definition clampex_file (sweep : list series) : nwbfile :=
  NWBFile (Some "Clampex 10.7") (Some (map (fun s => (7, s)) sweep)).

(** A file of the acquisition with sweep 7 only, its response series of the
    given ancestry; the unit of the stimulus is stored as [bytes]. *)
Definition mies_file_with (ancestry : h5value) : h5file :=
  File (list_to_map
          [("acquisition",
            group [("timeseries",
                    group [("data_00007_AD0",
                            Group (list_to_map
                                     [("data",
                                       scalar (VArray (float64 [3; 4]%float)));
                                      ("starting_time",
                                       Dataset (VFloat 0) {[ "rate" := VFloat 50000 ]})])
                                  {[ "ancestry" := ancestry ]})])]);
           ("stimulus",
            group [("presentation",
                    group [("data_00007_DA0",
                            group [("data",
                                    Dataset (VArray (float64 [1; 2]%float))
                                            {[ "unit" := VBytes "Volts" ]})])])])]) ∅.


(** A file whose [generated_by] holds the entries given, and nothing else. *)
Definition generated_by_file (entries : list string) : h5file :=
  File {[ "general" :=
            Group {[ "generated_by" := Dataset (VStrs entries) ∅ ]} ∅ ]} ∅.

(** A file with one sweep entry that holds its data only. *)
Definition bare_sweep_file : h5file :=
  File {[ "acquisition" :=
            group [("timeseries",
                    group [("Sweep_3",
                            group [("data", scalar (VArray (float64 [])))])])] ]} ∅.


Definition version1_file : h5file :=
  File {[ "nwb_version" := scalar (VStr "NWB-1.0.5") ]} ∅.

Definition version2_file : h5file :=
  File ∅ {[ "nwb_version" := VStr "2.0b" ]}.

End Demo.

(** * More example files *)

Module Examples.

(** A version 1 file with the sweep entries given under
    [acquisition/timeseries]. *)
Definition version1_sweeps_file (sweeps : list (string * node)) : h5file :=
  File (list_to_map
          [("nwb_version", Demo.scalar (VStr "NWB-1.0.5"));
           ("acquisition",
            Demo.group [("timeseries", Demo.group sweeps)])]) ∅.

(** A sweep entry of the pipeline with its stimulus description. *)
Definition described_sweep (description : h5value) : node :=
  Demo.group [("data", Demo.scalar (VArray (Demo.float64 [3; 4]%float)));
              ("aibs_stimulus_description", Demo.scalar description)].

Definition described_file : h5file :=
  version1_sweeps_file
    [("Sweep_3", described_sweep (VStr "C1LSFINEST150112_DA_0"));
     ("Sweep_10", described_sweep (VStr "C1RP25PR1S"))].

(** The entries and the attributes of a sweep of a converted file. *)
Definition converted_entries : list (string * node) :=
  [("data", Demo.scalar (VArray (Demo.float64 [3; 4]%float)));
   ("electrode", Demo.group []);
   ("sweep_number", Demo.scalar (VInt UInt64 7));
   ("stimulus_description", Demo.scalar (VStr "C1LSFINEST150112"))].

Definition converted_attrs : gmap string h5value :=
  {[ "description" := VStr "PLACEHOLDER"; "sweep_number" := VInt UInt64 0 ]}.

Definition converted_file : h5file :=
  File {[ "acquisition" :=
            Demo.group [("timeseries",
                         Demo.group [("index_000",
                                      Group (list_to_map converted_entries)
                                            converted_attrs)])] ]}
       {[ "nwb_version" := VStr "2.0b" ]}.

(** A pipeline file without [general]. *)
Definition unversioned_file : h5file :=
  File {[ "epochs" := Demo.group [("Sweep_7", Demo.sweep7 [3; 4]%float 2)] ]} ∅.

(** A pipeline file whose [Experiment_7] has a start and no count. *)
Definition incomplete_experiment_file : h5file :=
  Demo.pipeline_file ["version"; "1.1"]
    [("Sweep_7", Demo.sweep7 [3; 4]%float 2);
     ("Experiment_7",
      Demo.group [("stimulus",
                   Demo.group [("idx_start", Demo.scalar (VInt Int64 1))])])].

(** A pipeline file of version 1.1 whose sweep 7 stores float32: the
    stimulus 0.1 and the response 0.3, each rounded to float32, with the
    conversion factor 1 and the unit as given. *)
Definition float32_file (unit : h5value) : h5file :=
  Demo.pipeline_file ["version"; "1.1"]
    [("Sweep_7",
      Demo.epoch
        (Demo.samples_with
           (Floats Float32 [Demo.round_to Float32 0x1.999999999999ap-4%float])
           1 (Some unit))
        (Demo.samples_with
           (Floats Float32 [Demo.round_to Float32 0x1.3333333333333p-2%float])
           1 None)
        0 1)].

(** A pipeline file of the version given whose sweep 7 stores int16. *)
Definition int16_file (version : string) : h5file :=
  Demo.pipeline_file ["version"; version]
    [("Sweep_7",
      Demo.epoch (Demo.samples_with (Ints Int16 [1; 2]) 0.5 (Some (VBytes "Amps")))
                 (Demo.samples_with (Ints Int16 [3; 4]) 2 None)
                 0 2)].

(** A pipeline file whose [Experiment_7] starts at the largest [int32] and
    counts two samples. *)
Definition int32_limit_file : h5file :=
  Demo.pipeline_file ["version"; "1.1"]
    [("Sweep_7", Demo.sweep7 [3; 4]%float 2);
     ("Experiment_7",
      Demo.epoch_with (Demo.sample_dataset [2]%float 0.5 (Some "Amps"))
                      (Demo.sample_dataset [4]%float 2 None)
                      (VInt Int32 2147483647) (VInt Int32 2))].

(** Files that store a text as [bytes] where the code wants a [str]: the
    version marker, and the entries of [generated_by]. *)
Definition bytes_marker_file : h5file :=
  File {[ "nwb_version" := Demo.scalar (VBytes "NWB-1.0.5") ]} ∅.

Definition bytes_generated_by_file : h5file :=
  File (list_to_map
          [("general",
            Demo.group [("generated_by",
                         Demo.scalar (VByteStrs ["version"; "1.1"]))]);
           ("epochs", Demo.group [("Sweep_7", Demo.sweep7 [3; 4]%float 2)])]) ∅.

End Examples.

(** * Properties *)

(** ** Reasoning about results *)

Lemma bind_Ok {A B} (m : result A) (k : A -> result B) (b : B) :
  m ≫= k = Ok b -> exists a, m = Ok a /\ k a = Ok b.
Proof.
  destruct m as [a|e]; simpl; intros Hk; [|discriminate].
  exists a. split; [reflexivity | exact Hk].
Qed.

Lemma bind_Ok_eq {A B} (m : result A) (k : A -> result B) (a : A) :
  m = Ok a -> m ≫= k = k a.
Proof. intros ->. reflexivity. Qed.

Lemma assert_Ok (cond : bool) (u : Datatypes.unit) : assert cond = Ok u -> cond = true.
Proof. destruct cond; simpl; [reflexivity | discriminate]. Qed.

(** Takes the first step of a successful sequence apart. *)
Ltac bind_inv H x Hx :=
  apply bind_Ok in H; destruct H as (x & Hx & H); simpl in H.

(** Takes a successful sequence apart, step by step. *)
Ltac binds_inv H :=
  repeat (first [ discriminate H
                | apply bind_Ok in H; destruct H as (? & ? & H); simpl in H ]).

(** Splits the case on the boolean that the result in [H] depends on. *)
Ltac destruct_bool_in H :=
  match type of H with
  | (if ?b then _ else _) = _ => destruct b eqn:?
  end.

(** ** The arithmetic of numpy *)

Section Arithmetic.
Context `{External}.

Lemma len_mul (a : ndarray) (c : float) : Np.len (Numpy.mul a c) = Np.len a.
Proof. destruct a as [[| |] l|t l]; simpl; apply length_map. Qed.

Lemma len_imul (a b : ndarray) (c : float) :
  Numpy.imul a c = Ok b -> Np.len b = Np.len a.
Proof.
  destruct a as [[| |] l|t l]; simpl; intros Hb; try discriminate;
    injection Hb as <-; simpl; apply length_map.
Qed.

(** On an array of float64 the two products are the binary64 products of
    its elements. *)
Lemma mul_float64 (l : list float) (c : float) :
  Numpy.mul (Floats Float64 l) c = Floats Float64 (map (fun x => (x * c)%float) l)
  /\ Numpy.imul (Floats Float64 l) c
     = Ok (Floats Float64 (map (fun x => (x * c)%float) l)).
Proof. split; reflexivity. Qed.

(** The product in place succeeds on a floating array, keeps its dtype,
    and fails on an array of integers. *)
Lemma imul_cases (a : ndarray) (c : float) :
  match a with
  | Floats t l => exists l', Numpy.imul a c = Ok (Floats t l')
  | Ints _ _ => Numpy.imul a c = Raise TypeError
  end.
Proof. destruct a as [[| |] l|t l]; simpl; eauto. Qed.

Lemma last_exact (t1 : int_dtype) (s : Z) (t2 : int_dtype) (c : Z) :
  exact_sum t1 s t2 c = true -> Numpy.last t1 s t2 c = s + c - 1.
Proof. unfold Numpy.last. intros ->. reflexivity. Qed.

End Arithmetic.

(** ** The pipeline version *)

Section PipelineVersion.
Context `{External}.

Lemma pipeline_version_default (f : h5file) (e : exn) :
  NwbReader.pipeline_version_body f = Raise e ->
  NwbReader.get_pipeline_version f = Ok (0, 0).
Proof. unfold NwbReader.get_pipeline_version. intros ->. reflexivity. Qed.

Lemma pipeline_version_outcomes (f : h5file) :
  (exists major minor, NwbReader.get_pipeline_version f = Ok (major, minor))
  \/ (NwbReader.pipeline_version_body f = Ok None
      /\ NwbReader.get_pipeline_version f = Raise (UnboundLocalError "major")).
Proof.
  unfold NwbReader.get_pipeline_version.
  destruct (NwbReader.pipeline_version_body f) as [[[major minor]|]|e].
  - left. exists major, minor. reflexivity.
  - right. split; reflexivity.
  - left. exists 0, 0. reflexivity.
Qed.

(** A version value with fewer than two pieces between dots leaves [major]
    and [minor] unbound, whatever [int] does. *)
Lemma get_pipeline_version_one_token (version : string) :
  (length (split "." version) < 2)%nat ->
  NwbReader.get_pipeline_version (Demo.generated_by_file ["version"; version])
  = Raise (UnboundLocalError "major").
Proof.
  intros Htoks.
  assert (Hbody : NwbReader.pipeline_version_body
                    (Demo.generated_by_file ["version"; version])
                  = Ok None).
  { unfold NwbReader.pipeline_version_body, Demo.generated_by_file, getitem, root.
    cbn [root_members root_attrs].
    rewrite lookup_singleton_eq. cbn [mbind result_bind].
    rewrite lookup_singleton_eq.
    rewrite bool_decide_eq_true_2 by eauto.
    unfold getpath. rewrite !lookup_singleton_eq.
    cbn [NwbReader.scan_generated_by NwbReader.find_version String.eqb].
    simpl.
    destruct (split "." version) as [|tok0 [|tok1 toks]];
      [reflexivity | reflexivity | simpl in Htoks; lia]. }
  unfold NwbReader.get_pipeline_version. rewrite Hbody. reflexivity.
Qed.

(** C9.  [get_pipeline_version] does not always degrade to (0, 0): when the
    value after the key ['version'] has no ['.'], as in ['1'], the body of
    the [try] ends without an error and without binding [major] and [minor],
    and the [return] after it raises [UnboundLocalError]. *)
Theorem get_pipeline_version_without_minor :
  NwbReader.get_pipeline_version (Demo.generated_by_file ["version"; "1"])
  = Raise (UnboundLocalError "major").
Proof. vm_compute. reflexivity. Qed.

End PipelineVersion.

(** ** The stimulus code *)

Section StimCodeUnbound.
Context `{External}.

Lemma read_stim_code_unbound (key : string) (f : h5file) (sweep_name : string)
    (timeseries : node) (members : gmap string node) (a : gmap string h5value) :
  getpath (root f) ["acquisition"; "timeseries"] = Ok timeseries ->
  getitem timeseries sweep_name = Ok (Group members a) ->
  members !! key = None ->
  read_stim_code key f sweep_name = Raise (UnboundLocalError "stim_code").
Proof.
  intros Hts Hsweep Hkey. unfold read_stim_code.
  rewrite (bind_Ok_eq _ _ _ Hts), (bind_Ok_eq _ _ _ Hsweep). simpl.
  rewrite Hkey. reflexivity.
Qed.

(** C10.  For both version 1 readers: when the sweep entry named by the
    argument of [get_stim_code] has no stimulus description entry, the call
    fails with [UnboundLocalError] ([stim_code] is never bound); it returns
    neither a default nor [None]. *)
Theorem get_stim_code_without_description (f : h5file) (sweep_name : string)
    (timeseries : node) (members : gmap string node) (a : gmap string h5value) :
  getpath (root f) ["acquisition"; "timeseries"] = Ok timeseries ->
  getitem timeseries sweep_name = Ok (Group members a) ->
  (members !! "aibs_stimulus_description" = None ->
   NwbPipelineReader.get_stim_code f sweep_name
   = Raise (UnboundLocalError "stim_code"))
  /\ (members !! "stimulus_description" = None ->
      NwbMiesReader.get_stim_code f sweep_name
      = Raise (UnboundLocalError "stim_code")).
Proof.
  intros Hts Hsweep. split; intros Hkey.
  - exact (read_stim_code_unbound _ _ _ _ _ _ Hts Hsweep Hkey).
  - exact (read_stim_code_unbound _ _ _ _ _ _ Hts Hsweep Hkey).
Qed.

End StimCodeUnbound.

Lemma get_stim_code_without_description_witness :
  NwbPipelineReader.get_stim_code (H := Demo.plain) Demo.bare_sweep_file "Sweep_3"
  = Raise (UnboundLocalError "stim_code")
  /\ NwbMiesReader.get_stim_code (H := Demo.plain) Demo.bare_sweep_file "Sweep_3"
     = Raise (UnboundLocalError "stim_code").
Proof.
  destruct (get_stim_code_without_description (H := Demo.plain)
              Demo.bare_sweep_file "Sweep_3"
              (Demo.group [("Sweep_3",
                            Demo.group [("data",
                                         Demo.scalar (VArray (Demo.float64 [])))])])
              {[ "data" := Demo.scalar (VArray (Demo.float64 [])) ]} ∅)
    as [Hpipeline Hmies].
  - vm_compute. reflexivity.
  - vm_compute. reflexivity.
  - split; [apply Hpipeline | apply Hmies]; vm_compute; reflexivity.
Defined.

(** ** The NWB version *)



(** In a file without an entry [nwb_version], the attribute of that name is
    read with [.value], which no attribute value has. *)
Lemma get_nwb_version_attribute (f : h5file) :
  root_members f !! "nwb_version" = None ->
  is_Some (root_attrs f !! "nwb_version") ->
  get_nwb_version f = Raise AttributeError.
Proof.
  intros Hentry [v Hattr]. unfold get_nwb_version.
  rewrite bool_decide_eq_false_2 by (rewrite Hentry; apply is_Some_None).
  rewrite bool_decide_eq_true_2 by (rewrite Hattr; eauto).
  unfold attr, root. simpl. rewrite Hattr. reflexivity.
Qed.

Example get_nwb_version_of_version2_file :
  get_nwb_version Demo.version2_file = Raise AttributeError.
Proof. reflexivity. Qed.



Example get_nwb_version_of_bytes_marker_file :
  get_nwb_version Examples.bytes_marker_file = Raise TypeError.
Proof. reflexivity. Qed.



(** ** NwbPipelineReader.get_sweep_data *)

Section PipelineSweep.
Context `{External}.
Import NwbPipelineReader.

Lemma converts_spec (major minor : Z) :
  converts major minor = true <-> (major > 1 \/ (major = 1 /\ minor > 0)).
Proof. unfold converts. lia. Qed.

Lemma convert_Ok (major minor : Z) (d : sweep_datasets) (s r : ndarray) :
  convert major minor d = Ok (s, r) ->
  exists raw_s raw_r,
    sample_array (stimulus_dataset d) = Ok raw_s
    /\ sample_array (response_dataset d) = Ok raw_r
    /\ (s, r) = if converts major minor
                then (Numpy.mul raw_s (stimulus_conversion d),
                      Numpy.mul raw_r (response_conversion d))
                else (raw_s, raw_r).
Proof.
  unfold convert. intros Hc.
  destruct (converts major minor);
    bind_inv Hc raw_s Hs; bind_inv Hc raw_r Hr;
    injection Hc as <- <-; exists raw_s, raw_r; auto.
Qed.

Lemma rescale_Ok (unit_str : string) (s r s' r' : ndarray) :
  rescale unit_str s r = Ok (s', r') ->
  (unit_str = "Amps"
   /\ Numpy.imul s 1e12%float = Ok s' /\ Numpy.imul r 1e3%float = Ok r')
  \/ (unit_str = "Volts"
      /\ Numpy.imul s 1e3%float = Ok s' /\ Numpy.imul r 1e12%float = Ok r').
Proof.
  unfold rescale. intros Hr.
  destruct (String.eqb unit_str "Amps") eqn:Hamps.
  - apply String.eqb_eq in Hamps.
    bind_inv Hr r0 Hr0. bind_inv Hr s0 Hs0. injection Hr as <- <-. auto.
  - destruct (String.eqb unit_str "Volts") eqn:Hvolts; [|discriminate].
    apply String.eqb_eq in Hvolts.
    bind_inv Hr r0 Hr0. bind_inv Hr s0 Hs0. injection Hr as <- <-. auto.
Qed.

Lemma unit_name_cases (dataset : node) (unit_str : string) :
  unit_name dataset = Ok unit_str ->
  unit_str = "Amps" \/ unit_str = "Volts"
  \/ (unit_str = "Unknown" /\ has_attr dataset "unit" = false).
Proof.
  unfold unit_name, get_long_unit_name. intros Hu.
  destruct (has_attr dataset "unit").
  - binds_inv Hu.
    repeat (destruct_bool_in Hu; [injection Hu as <-; auto|]).
    discriminate.
  - injection Hu as <-. auto.
Qed.

(** What a successful call has gone through. *)
Lemma get_sweep_data_Ok (f : h5file) (n : Z) (out : sweep_data) :
  get_sweep_data f n = Ok out ->
  exists d major minor s r sweep_range,
    locate f n = Ok d
    /\ NwbReader.get_pipeline_version f = Ok (major, minor)
    /\ convert major minor d = Ok (s, r)
    /\ unit_name (stimulus_dataset d) = Ok (stimulus_unit out)
    /\ rescale (stimulus_unit out) s r = Ok (stimulus out, response out)
    /\ declared_range (swp d) = Ok sweep_range
    /\ fst sweep_range = 0
    /\ except_KeyError (experiment_range f n) (Ok sweep_range)
       = Ok (index_range out).
Proof.
  unfold get_sweep_data. intros Hout.
  bind_inv Hout d Hd. bind_inv Hout version Hversion.
  destruct version as [major minor].
  bind_inv Hout sr Hconvert. destruct sr as [s r].
  bind_inv Hout unit_str Hunit.
  bind_inv Hout sr' Hrescale. destruct sr' as [s' r'].
  bind_inv Hout sweep_range Hsweep.
  bind_inv Hout range Hrange.
  bind_inv Hout u Hassert. apply assert_Ok in Hassert.
  binds_inv Hout. injection Hout as <-. simpl.
  exists d, major, minor, s, r, sweep_range.
  repeat split; try assumption. lia.
Qed.

(** The call once the sweep is located, the version read, the arrays
    converted and the unit resolved. *)
Lemma get_sweep_data_from_unit (f : h5file) (n : Z) (d : sweep_datasets)
    (major minor : Z) (s r : ndarray) (unit_str : string) :
  locate f n = Ok d ->
  NwbReader.get_pipeline_version f = Ok (major, minor) ->
  convert major minor d = Ok (s, r) ->
  unit_name (stimulus_dataset d) = Ok unit_str ->
  get_sweep_data f n
  = ('(stimulus, response) ← rescale unit_str s r;
     sweep_index_range ← declared_range (swp d);
     index_range ← except_KeyError (experiment_range f n) (Ok sweep_index_range);
     _ ← assert (fst sweep_index_range =? 0);
     starting_time ← getitems (swp d) ["stimulus"; "timeseries"; "starting_time"];
     rate ← attr starting_time "rate";
     sampling_rate ← times_one rate;
     Ok (SweepData stimulus response unit_str index_range sampling_rate)).
Proof.
  intros Hd Hversion Hconvert Hunit. unfold get_sweep_data.
  rewrite (bind_Ok_eq _ _ _ Hd), (bind_Ok_eq _ _ _ Hversion). simpl.
  rewrite (bind_Ok_eq _ _ _ Hconvert). simpl.
  rewrite (bind_Ok_eq _ _ _ Hunit). reflexivity.
Qed.

(** The arrays a successful call returns, from the stored ones. *)
Lemma returned_arrays (f : h5file) (n : Z) (d : sweep_datasets)
    (major minor : Z) (raw_stimulus raw_response : ndarray)
    (out : sweep_data) :
  locate f n = Ok d ->
  sample_array (stimulus_dataset d) = Ok raw_stimulus ->
  sample_array (response_dataset d) = Ok raw_response ->
  NwbReader.get_pipeline_version f = Ok (major, minor) ->
  get_sweep_data f n = Ok out ->
  exists k_s k_r : float,
    (((k_s, k_r) = (1e12, 1e3)%float /\ stimulus_unit out = "Amps")
     \/ ((k_s, k_r) = (1e3, 1e12)%float /\ stimulus_unit out = "Volts"))
    /\ Numpy.imul (if converts major minor
                   then Numpy.mul raw_stimulus (stimulus_conversion d)
                   else raw_stimulus) k_s
       = Ok (stimulus out)
    /\ Numpy.imul (if converts major minor
                   then Numpy.mul raw_response (response_conversion d)
                   else raw_response) k_r
       = Ok (response out).
Proof.
  intros Hd Hraw_s Hraw_r Hversion Hout.
  apply get_sweep_data_Ok in Hout
    as (d' & major' & minor' & s & r & sweep_range
        & Hd' & Hversion' & Hconvert & _ & Hrescale & _).
  rewrite Hd in Hd'. injection Hd' as <-.
  rewrite Hversion in Hversion'. injection Hversion' as <- <-.
  apply convert_Ok in Hconvert as (raw_s & raw_r & Hs & Hr & Hsr).
  rewrite Hraw_s in Hs. injection Hs as <-.
  rewrite Hraw_r in Hr. injection Hr as <-.
  assert (Hs : s = if converts major minor
                   then Numpy.mul raw_stimulus (stimulus_conversion d)
                   else raw_stimulus)
    by (destruct (converts major minor); congruence).
  assert (Hr : r = if converts major minor
                   then Numpy.mul raw_response (response_conversion d)
                   else raw_response)
    by (destruct (converts major minor); congruence).
  rewrite <- Hs, <- Hr.
  apply rescale_Ok in Hrescale as [(Hunit & Hs' & Hr')|(Hunit & Hs' & Hr')];
    [exists 1e12%float, 1e3%float | exists 1e3%float, 1e12%float]; auto.
Qed.

(** C1.  The declared conversion factors are applied to the stimulus and
    response arrays if and only if the pipeline version satisfies
    [major > 1] or [major = 1] and [minor > 0]: then the arrays returned are
    the stored ones times their conversion factors, rescaled in place to mV
    and pA; for (1, 0) and below they are the stored ones, rescaled in
    place only.  The products are numpy's, in the dtype of the arrays. *)
Theorem conversion_applied_by_version (f : h5file) (n : Z) (d : sweep_datasets)
    (major minor : Z) (raw_stimulus raw_response : ndarray)
    (out : sweep_data) :
  locate f n = Ok d ->
  sample_array (stimulus_dataset d) = Ok raw_stimulus ->
  sample_array (response_dataset d) = Ok raw_response ->
  NwbReader.get_pipeline_version f = Ok (major, minor) ->
  get_sweep_data f n = Ok out ->
  exists k_s k_r : float,
    (((k_s, k_r) = (1e12, 1e3)%float /\ stimulus_unit out = "Amps")
     \/ ((k_s, k_r) = (1e3, 1e12)%float /\ stimulus_unit out = "Volts"))
    /\ (major > 1 \/ (major = 1 /\ minor > 0) ->
        Numpy.imul (Numpy.mul raw_stimulus (stimulus_conversion d)) k_s
        = Ok (stimulus out)
        /\ Numpy.imul (Numpy.mul raw_response (response_conversion d)) k_r
           = Ok (response out))
    /\ (~ (major > 1 \/ (major = 1 /\ minor > 0)) ->
        Numpy.imul raw_stimulus k_s = Ok (stimulus out)
        /\ Numpy.imul raw_response k_r = Ok (response out)).
Proof.
  intros Hd Hraw_s Hraw_r Hversion Hout.
  destruct (returned_arrays f n d major minor raw_stimulus raw_response out
              Hd Hraw_s Hraw_r Hversion Hout)
    as (k_s & k_r & Hk & Hs & Hr).
  exists k_s, k_r. split; [exact Hk|]. split; intros Hgate.
  - apply converts_spec in Hgate. rewrite Hgate in Hs, Hr. auto.
  - destruct (converts major minor) eqn:Hconverts; [|auto].
    apply converts_spec in Hconverts. contradiction.
Qed.

(** C2.  After the unit is resolved the arrays are rescaled by fixed
    factors: for Amps the response is multiplied by 10^3 and the stimulus by
    10^12, for Volts the response by 10^12 and the stimulus by 10^3, in
    place; with the unit Unknown [get_sweep_data] fails with the unknown
    stimulus unit error.  The unit resolves to nothing else. *)
Theorem rescale_by_unit (f : h5file) (n : Z) (d : sweep_datasets)
    (major minor : Z) (s r : ndarray) :
  locate f n = Ok d ->
  NwbReader.get_pipeline_version f = Ok (major, minor) ->
  convert major minor d = Ok (s, r) ->
  (unit_name (stimulus_dataset d) = Ok "Amps" ->
   forall out, get_sweep_data f n = Ok out ->
     Numpy.imul r 1e3%float = Ok (response out)
     /\ Numpy.imul s 1e12%float = Ok (stimulus out))
  /\ (unit_name (stimulus_dataset d) = Ok "Volts" ->
      forall out, get_sweep_data f n = Ok out ->
        Numpy.imul r 1e12%float = Ok (response out)
        /\ Numpy.imul s 1e3%float = Ok (stimulus out))
  /\ (unit_name (stimulus_dataset d) = Ok "Unknown" ->
      get_sweep_data f n = Raise (ValueError UnknownStimulusUnit))
  /\ (forall unit_str, unit_name (stimulus_dataset d) = Ok unit_str ->
        unit_str = "Amps" \/ unit_str = "Volts" \/ unit_str = "Unknown").
Proof.
  intros Hd Hversion Hconvert.
  assert (Hsuccess : forall unit_str out,
             unit_name (stimulus_dataset d) = Ok unit_str ->
             get_sweep_data f n = Ok out ->
             rescale unit_str s r = Ok (stimulus out, response out)).
  { intros unit_str out Hunit Hout.
    apply get_sweep_data_Ok in Hout
      as (d' & major' & minor' & s' & r' & sweep_range
          & Hd' & Hversion' & Hconvert' & Hunit' & Hrescale & _).
    rewrite Hd in Hd'. injection Hd' as <-.
    rewrite Hversion in Hversion'. injection Hversion' as <- <-.
    rewrite Hconvert in Hconvert'. injection Hconvert' as <- <-.
    rewrite Hunit in Hunit'. injection Hunit' as Hu.
    rewrite <- Hu in Hrescale. exact Hrescale. }
  split; [|split; [|split]].
  - intros Hunit out Hout.
    apply (Hsuccess _ out Hunit) in Hout.
    apply rescale_Ok in Hout as [(_ & Hs & Hr)|(Hu & _)];
      [split; assumption | discriminate].
  - intros Hunit out Hout.
    apply (Hsuccess _ out Hunit) in Hout.
    apply rescale_Ok in Hout as [(Hu & _)|(_ & Hs & Hr)];
      [discriminate | split; assumption].
  - intros Hunit.
    rewrite (get_sweep_data_from_unit f n d major minor s r "Unknown")
      by assumption.
    reflexivity.
  - intros unit_str Hunit.
    apply unit_name_cases in Hunit as [->|[->|[-> _]]]; auto.
Qed.

Lemma declared_range_ints (epoch : node) (t_s t_c : int_dtype) (s c : Z)
    (a_s a_c : gmap string h5value) :
  getitems epoch ["stimulus"; "idx_start"] = Ok (Dataset (VInt t_s s) a_s) ->
  getitems epoch ["stimulus"; "count"] = Ok (Dataset (VInt t_c c) a_c) ->
  declared_range epoch = Ok (s, Numpy.last t_s s t_c c).
Proof.
  intros Hs Hc. unfold declared_range.
  rewrite (bind_Ok_eq _ _ _ Hs). simpl.
  rewrite (bind_Ok_eq _ _ _ Hc). reflexivity.
Qed.

Lemma declared_range_Ok (epoch : node) (range : Z * Z) :
  declared_range epoch = Ok range ->
  exists t_s t_c s c a_s a_c,
    getitems epoch ["stimulus"; "idx_start"] = Ok (Dataset (VInt t_s s) a_s)
    /\ getitems epoch ["stimulus"; "count"] = Ok (Dataset (VInt t_c c) a_c)
    /\ range = (s, Numpy.last t_s s t_c c).
Proof.
  unfold declared_range. intros Hrange.
  bind_inv Hrange start_node Hstart. bind_inv Hrange start_value Hsv.
  bind_inv Hrange count_node Hcount. bind_inv Hrange count_value Hcv.
  bind_inv Hrange s Hs. destruct s as [t_s s]. simpl in Hrange.
  bind_inv Hrange c Hc. destruct c as [t_c c]. simpl in Hrange.
  injection Hrange as <-.
  destruct start_node as [v a_s|]; [|discriminate]. injection Hsv as ->.
  destruct count_node as [v a_c|]; [|discriminate]. injection Hcv as ->.
  destruct start_value; try discriminate. injection Hs as -> ->.
  destruct count_value; try discriminate. injection Hc as -> ->.
  exists t_s, t_c, s, c, a_s, a_c. auto.
Qed.

(** C6.  When [Experiment_<n>] exists, the index range returned is that
    entry's [(start, start + count - 1)]; when it does not exist this is no
    error, and the index range returned is the sweep's own
    [(start, start + count - 1)]; in both cases the start index the sweep
    declares is 0, or the call fails.  The start and the count are numpy
    integers: the end is [start + count - 1] as numpy computes it, which is
    that integer whenever neither is negative and their sum is at least 1
    and within the dtypes of both (and within 2^53). *)
Theorem index_range_of_experiment_or_sweep (f : h5file) (n : Z)
    (d : sweep_datasets) :
  locate f n = Ok d ->
  (forall out, get_sweep_data f n = Ok out ->
     exists t_0 t_count count a_s a_c,
       getitems (swp d) ["stimulus"; "idx_start"]
       = Ok (Dataset (VInt t_0 0) a_s)
       /\ getitems (swp d) ["stimulus"; "count"]
          = Ok (Dataset (VInt t_count count) a_c)
       /\ (forall exp t_s t_c s c e_s e_c,
             getitems (root f) ["epochs"; "Experiment_" +:+ fmt_d n] = Ok exp ->
             getitems exp ["stimulus"; "idx_start"]
             = Ok (Dataset (VInt t_s s) e_s) ->
             getitems exp ["stimulus"; "count"]
             = Ok (Dataset (VInt t_c c) e_c) ->
             index_range out = (s, Numpy.last t_s s t_c c)
             /\ (exact_sum t_s s t_c c = true ->
                 index_range out = (s, s + c - 1)))
       /\ (getitems (root f) ["epochs"; "Experiment_" +:+ fmt_d n]
           = Raise KeyError ->
           index_range out = (0, Numpy.last t_0 0 t_count count)
           /\ (exact_sum t_0 0 t_count count = true ->
               index_range out = (0, 0 + count - 1))))
  /\ (forall major minor s r unit_str s' r' stop starting_time rate hz,
        NwbReader.get_pipeline_version f = Ok (major, minor) ->
        convert major minor d = Ok (s, r) ->
        unit_name (stimulus_dataset d) = Ok unit_str ->
        rescale unit_str s r = Ok (s', r') ->
        declared_range (swp d) = Ok (0, stop) ->
        getitems (swp d) ["stimulus"; "timeseries"; "starting_time"]
        = Ok starting_time ->
        attr starting_time "rate" = Ok rate ->
        times_one rate = Ok hz ->
        getitems (root f) ["epochs"; "Experiment_" +:+ fmt_d n]
        = Raise KeyError ->
        get_sweep_data f n = Ok (SweepData s' r' unit_str (0, stop) hz)).
Proof.
  intros Hd. split.
  - intros out Hout.
    apply get_sweep_data_Ok in Hout
      as (d' & major & minor & s & r & sweep_range
          & Hd' & _ & _ & _ & _ & Hsweep & Hzero & Hrange).
    rewrite Hd in Hd'. injection Hd' as <-.
    apply declared_range_Ok in Hsweep
      as (t_0 & t_count & start & count & a_s & a_c & Hstart & Hcount & ->).
    simpl in Hzero. subst start.
    exists t_0, t_count, count, a_s, a_c.
    split; [assumption|]. split; [assumption|]. split.
    + intros exp t_s t_c s0 c e_s e_c Hexp Hs0 Hc.
      unfold experiment_range in Hrange.
      rewrite (bind_Ok_eq _ _ _ Hexp) in Hrange.
      rewrite (declared_range_ints _ _ _ _ _ _ _ Hs0 Hc) in Hrange.
      simpl in Hrange. injection Hrange as <-.
      split; [reflexivity|].
      intros Hexact. rewrite (last_exact _ _ _ _ Hexact). reflexivity.
    + intros Habsent.
      unfold experiment_range in Hrange. rewrite Habsent in Hrange.
      simpl in Hrange. injection Hrange as <-.
      split; [reflexivity|].
      intros Hexact. rewrite (last_exact _ _ _ _ Hexact). reflexivity.
  - intros major minor s r unit_str s' r' stop starting_time rate hz
      Hversion Hconvert Hunit Hrescale Hsweep Hstart Hrate Hhz Habsent.
    rewrite (get_sweep_data_from_unit f n d major minor s r unit_str)
      by assumption.
    rewrite (bind_Ok_eq _ _ _ Hrescale). simpl.
    rewrite (bind_Ok_eq _ _ _ Hsweep).
    unfold experiment_range. rewrite Habsent. simpl.
    rewrite (bind_Ok_eq _ _ _ Hstart), (bind_Ok_eq _ _ _ Hrate),
      (bind_Ok_eq _ _ _ Hhz).
    reflexivity.
Qed.

End PipelineSweep.

(** ** NwbXReader.get_sweep_data *)

Section ConvertedSweep.
Context `{External}.
Import NwbXReader.

Lemma response_is_no_stimulus (s : series) :
  is_response_series s = true -> is_stimulus_series s = false.
Proof.
  unfold is_response_series, is_stimulus_series.
  destruct (cls s); (discriminate || reflexivity).
Qed.

Lemma retained_cons (src : raw_data_source) (s : series) (l : list series) :
  retained src (s :: l)
  = match skipped src s with
    | Ok false => s :: retained src l
    | _ => retained src l
    end.
Proof.
  unfold retained. simpl.
  destruct (skipped src s) as [[|]|]; reflexivity.
Qed.

Lemma retained_app (src : raw_data_source) (l1 l2 : list series) :
  retained src (l1 ++ l2)%list = (retained src l1 ++ retained src l2)%list.
Proof. unfold retained. apply List.filter_app. Qed.

(** The loop over a list in two pieces. *)
Lemma scan_series_app (src : raw_data_source) (l1 l2 : list series) :
  forall response stimulus,
    scan_series src (l1 ++ l2)%list response stimulus
    = '(response', stimulus') ← scan_series src l1 response stimulus;
      scan_series src l2 response' stimulus'.
Proof.
  induction l1 as [|s l1 IH]; intros response stimulus; simpl.
  - reflexivity.
  - destruct (skipped src s) as [[|]|e]; simpl; [apply IH | | reflexivity].
    destruct (is_response_series s).
    + destruct response; [reflexivity | apply IH].
    + destruct (is_stimulus_series s); [|reflexivity].
      destruct stimulus; [reflexivity|].
      destruct (get_long_unit_name (unit s)); simpl; [|reflexivity].
      destruct (rate s); simpl; [apply IH | reflexivity].
Qed.

(** What the loop has counted when it ends: every series it kept was a
    response or a stimulus, and each of the two variables is bound exactly
    when one series of its kind was kept. *)
Lemma scan_series_counts (src : raw_data_source) (l : list series) :
  forall response0 stimulus0 response stimulus,
    scan_series src l response0 stimulus0 = Ok (response, stimulus) ->
    (length (List.filter is_response_series (retained src l)) + bound response0
     = bound response)%nat
    /\ (length (List.filter is_stimulus_series (retained src l)) + bound stimulus0
        = bound stimulus)%nat
    /\ Forall (fun s => is_response_series s = true
                        \/ is_stimulus_series s = true) (retained src l).
Proof.
  induction l as [|s l IH]; intros response0 stimulus0 response stimulus Hscan.
  - simpl in Hscan. injection Hscan as <- <-. simpl. auto.
  - simpl in Hscan. rewrite retained_cons.
    destruct (skipped src s) as [[|]|e]; simpl in Hscan;
      [exact (IH _ _ _ _ Hscan) | | discriminate].
    destruct (is_response_series s) eqn:Hresponse.
    + destruct response0; [discriminate|].
      apply IH in Hscan as (Hr & Hs & Hall). simpl.
      rewrite Hresponse, (response_is_no_stimulus s Hresponse). simpl in *.
      repeat split; [lia | lia | constructor; auto].
    + destruct (is_stimulus_series s) eqn:Hstimulus; [|discriminate].
      destruct stimulus0; [discriminate|].
      binds_inv Hscan.
      apply IH in Hscan as (Hr & Hs & Hall). simpl.
      rewrite Hresponse, Hstimulus. simpl in *.
      repeat split; [lia | lia | constructor; auto].
Qed.

(** The stimulus variables, when bound by the loop, hold the converted data
    of a series and the index range from 0 to its last sample. *)
Lemma scan_series_stimulus (src : raw_data_source) (l : list series) :
  forall response0 stimulus0 response stimulus,
    scan_series src l response0 stimulus0 = Ok (response, stimulus) ->
    (forall st, stimulus0 = Some st ->
       stimulus_index_range st = (0, Z.of_nat (Np.len (stimulus_array st)) - 1)) ->
    forall st, stimulus = Some st ->
      stimulus_index_range st = (0, Z.of_nat (Np.len (stimulus_array st)) - 1).
Proof.
  induction l as [|s l IH]; intros response0 stimulus0 response stimulus Hscan Hinv.
  - simpl in Hscan. injection Hscan as <- <-. exact Hinv.
  - simpl in Hscan.
    destruct (skipped src s) as [[|]|e]; simpl in Hscan;
      [exact (IH _ _ _ _ Hscan Hinv) | | discriminate].
    destruct (is_response_series s).
    + destruct response0; [discriminate|]. exact (IH _ _ _ _ Hscan Hinv).
    + destruct (is_stimulus_series s); [|discriminate].
      destruct stimulus0; [discriminate|].
      binds_inv Hscan.
      apply (IH _ _ _ _ Hscan). intros st [= <-]. simpl.
      rewrite len_mul. reflexivity.
Qed.

Lemma get_sweep_data_Ok_X (nwb : nwbfile) (n : Z) (out : sweep_data) :
  get_sweep_data nwb n = Ok out ->
  exists src sweep st,
    sweep_series nwb n = Ok (src, sweep)
    /\ scan_series src sweep None None = Ok (Some (response out), Some st)
    /\ stimulus out = stimulus_array st
    /\ index_range out = stimulus_index_range st
    /\ Np.len (stimulus out) = Np.len (response out).
Proof.
  unfold get_sweep_data. intros Hout.
  bind_inv Hout opened Hopened. destruct opened as [src sweep].
  bind_inv Hout found Hfound. destruct found as [response stimulus].
  destruct stimulus as [st|]; [|discriminate].
  destruct response as [response|]; [|discriminate].
  bind_inv Hout u Hassert. apply assert_Ok in Hassert.
  injection Hout as <-. simpl.
  exists src, sweep, st. repeat split; try assumption.
  apply Nat.eqb_eq. exact Hassert.
Qed.

Lemma filter_has_member {A} (p : A -> bool) (l : list A) (x : A) :
  In x l -> p x = true -> (1 <= length (List.filter p l))%nat.
Proof.
  intros Hin Hp.
  assert (Hx : In x (List.filter p l)) by (apply List.filter_In; auto).
  destruct (List.filter p l); [contradiction | simpl; lia].
Qed.

Lemma bound_Some {A} (o : option A) : (1 <= bound o)%nat -> is_Some o.
Proof. destruct o; simpl; [eauto | lia]. Qed.

Lemma bound_None {A} (o : option A) : bound o = 0%nat -> o = None.
Proof. destruct o; simpl; [discriminate | reflexivity]. Qed.

(** The call, once the loop has gone through the series before [s] and
    reaches [s]. *)
Lemma get_sweep_data_at (nwb : nwbfile) (n : Z) (src : raw_data_source)
    (pre : list series) (s : series) (post : list series)
    (response : option ndarray) (stimulus : option stimulus_vars) :
  sweep_series nwb n = Ok (src, (pre ++ s :: post)%list) ->
  scan_series src pre None None = Ok (response, stimulus) ->
  forall e, scan_series src (s :: post) response stimulus = Raise e ->
  get_sweep_data nwb n = Raise e.
Proof.
  intros Hopened Hpre e Hs. unfold get_sweep_data.
  rewrite (bind_Ok_eq _ _ _ Hopened). simpl.
  rewrite scan_series_app, (bind_Ok_eq _ _ _ Hpre). simpl in *.
  rewrite Hs. reflexivity.
Qed.

(** C5.  Among the series of a sweep that the channel test keeps: a second
    response series (voltage clamp, current clamp or zero clamp) is the
    error of multiple responses, a second stimulus series the error of
    multiple stimuli, a series of any other class the error of an
    unexpected series; a sweep without a stimulus series, or without a
    response series, is an error too; and a call that succeeds has found
    exactly one stimulus and one response series, with arrays of the same
    length. *)
Theorem converted_reader_series_checks (nwb : nwbfile) (n : Z)
    (src : raw_data_source) (sweep : list series) :
  sweep_series nwb n = Ok (src, sweep) ->
  (forall pre s post response stimulus,
      sweep = (pre ++ s :: post)%list ->
      scan_series src pre None None = Ok (response, stimulus) ->
      skipped src s = Ok false ->
      (is_response_series s = true ->
       (exists s0, In s0 (retained src pre) /\ is_response_series s0 = true) ->
       get_sweep_data nwb n = Raise (ValueError MultipleResponse))
      /\ (is_stimulus_series s = true ->
          (exists s0, In s0 (retained src pre) /\ is_stimulus_series s0 = true) ->
          get_sweep_data nwb n = Raise (ValueError MultipleStimulus))
      /\ (is_response_series s = false ->
          is_stimulus_series s = false ->
          get_sweep_data nwb n = Raise (ValueError UnexpectedTimeSeries)))
  /\ (forall response stimulus,
        scan_series src sweep None None = Ok (response, stimulus) ->
        (length (List.filter is_stimulus_series (retained src sweep)) = 0%nat ->
         get_sweep_data nwb n = Raise (ValueError NoStimulus))
        /\ (length (List.filter is_stimulus_series (retained src sweep)) <> 0%nat ->
            length (List.filter is_response_series (retained src sweep)) = 0%nat ->
            get_sweep_data nwb n = Raise (ValueError NoResponse)))
  /\ (forall out,
        get_sweep_data nwb n = Ok out ->
        length (List.filter is_response_series (retained src sweep)) = 1%nat
        /\ length (List.filter is_stimulus_series (retained src sweep)) = 1%nat
        /\ Forall (fun s => is_response_series s = true
                            \/ is_stimulus_series s = true) (retained src sweep)
        /\ Np.len (stimulus out) = Np.len (response out)).
Proof.
  intros Hopened. split; [|split].
  - intros pre s post response stimulus -> Hpre Hkept.
    pose proof (scan_series_counts _ _ _ _ _ _ Hpre) as (Hr & Hs & _).
    simpl in Hr, Hs.
    split; [|split].
    + intros Hresponse (s0 & Hin & Hs0).
      apply (get_sweep_data_at nwb n src pre s post response stimulus);
        [assumption | assumption |].
      pose proof (filter_has_member _ _ _ Hin Hs0) as Hcount.
      destruct (bound_Some response) as [r ->]; [lia|].
      simpl. rewrite Hkept. simpl. rewrite Hresponse. reflexivity.
    + intros Hstimulus (s0 & Hin & Hs0).
      apply (get_sweep_data_at nwb n src pre s post response stimulus);
        [assumption | assumption |].
      pose proof (filter_has_member _ _ _ Hin Hs0) as Hcount.
      destruct (bound_Some stimulus) as [st ->]; [lia|].
      simpl. rewrite Hkept. simpl. rewrite Hstimulus.
      destruct (is_response_series s) eqn:Hresponse; [|reflexivity].
      apply response_is_no_stimulus in Hresponse. congruence.
    + intros Hresponse Hstimulus.
      apply (get_sweep_data_at nwb n src pre s post response stimulus);
        [assumption | assumption |].
      simpl. rewrite Hkept. simpl. rewrite Hresponse, Hstimulus. reflexivity.
  - intros response stimulus Hscan.
    pose proof (scan_series_counts _ _ _ _ _ _ Hscan) as (Hr & Hs & _).
    simpl in Hr, Hs. unfold get_sweep_data.
    rewrite (bind_Ok_eq _ _ _ Hopened). simpl.
    rewrite (bind_Ok_eq _ _ _ Hscan). simpl.
    split.
    + intros Hnone. rewrite (bound_None stimulus) by lia. reflexivity.
    + intros Hsome Hnone.
      destruct (bound_Some stimulus) as [st ->]; [lia|].
      rewrite (bound_None response) by lia. reflexivity.
  - intros out Hout.
    apply get_sweep_data_Ok_X in Hout
      as (src' & sweep' & st & Hopened' & Hscan & _ & _ & Hlength).
    rewrite Hopened in Hopened'. injection Hopened' as <- <-.
    pose proof (scan_series_counts _ _ _ _ _ _ Hscan) as (Hr & Hs & Hall).
    simpl in Hr, Hs. repeat split; [lia | lia | assumption | assumption].
Qed.

End ConvertedSweep.

(** ** NwbMiesReader.get_sweep_data *)

Section AcquisitionSweep.
Context `{External}.
Import NwbMiesReader.

Lemma get_sweep_data_Ok_Mies (f : h5file) (n : Z) (out : sweep_data) :
  get_sweep_data f n = Ok out ->
  exists l,
    locate f n = Ok l
    /\ stimulus out = stimulus_array l
    /\ response out = response_array l
    /\ sampling_rate out = hz l
    /\ epoch_by_ancestry (sweep_response l) (stimulus_array l)
         (response_array l) (hz l) = Ok (index_range out).
Proof.
  unfold get_sweep_data. intros Hout.
  bind_inv Hout l Hl. bind_inv Hout stimulus_data Hdata.
  bind_inv Hout unit_str Hunit. bind_inv Hout range Hrange.
  injection Hout as <-. simpl. exists l. auto.
Qed.



(** The range returned is the result of one of the two epoch routines on
    the arrays returned. *)
Lemma index_range_from_epoch_routine (f : h5file) (n : Z) (out : sweep_data) :
  get_sweep_data f n = Ok out ->
  get_experiment_epoch (stimulus out) (response out) (sampling_rate out)
  = Ok (index_range out)
  \/ get_sweep_epoch (response out) = Ok (index_range out).
Proof.
  intros Hout.
  apply get_sweep_data_Ok_Mies in Hout as (l & _ & -> & -> & -> & Hepoch).
  unfold epoch_by_ancestry in Hepoch.
  bind_inv Hepoch ancestry Hancestry. bind_inv Hepoch current Hcurrent.
  destruct current; [left; exact Hepoch|].
  bind_inv Hepoch ancestry' Hancestry'. bind_inv Hepoch voltage Hvoltage.
  destruct voltage; [right; exact Hepoch | discriminate].
Qed.

End AcquisitionSweep.

(** ** The arrays and the index range, for the three readers *)

Section AllReaders.
Context `{External}.

Lemma pipeline_lengths (f : h5file) (n : Z) (d : NwbPipelineReader.sweep_datasets)
    (raw_stimulus raw_response : ndarray) (out : sweep_data) :
  NwbPipelineReader.locate f n = Ok d ->
  NwbPipelineReader.sample_array (NwbPipelineReader.stimulus_dataset d)
  = Ok raw_stimulus ->
  NwbPipelineReader.sample_array (NwbPipelineReader.response_dataset d)
  = Ok raw_response ->
  NwbPipelineReader.get_sweep_data f n = Ok out ->
  Np.len (stimulus out) = Np.len raw_stimulus
  /\ Np.len (response out) = Np.len raw_response.
Proof.
  intros Hd Hs Hr Hout.
  destruct (get_sweep_data_Ok f n out Hout)
    as (d' & major & minor & _ & _ & _ & Hd' & Hversion & _).
  destruct (returned_arrays f n d major minor raw_stimulus raw_response out
              Hd Hs Hr Hversion Hout)
    as (k_s & k_r & _ & Hstimulus & Hresponse).
  apply len_imul in Hstimulus, Hresponse.
  rewrite Hstimulus, Hresponse.
  destruct (NwbPipelineReader.converts major minor);
    rewrite ?len_mul; auto.
Qed.

(** C3, as the claim states it, fails for the reader of pipeline files: it
    returns the two arrays as stored, without comparing their lengths. *)
Lemma pipeline_arrays_of_unequal_length :
  ~ (forall out,
       NwbPipelineReader.get_sweep_data (H := Demo.plain) Demo.unequal_file 7
       = Ok out ->
       Np.len (stimulus out) = Np.len (response out)).
Proof.
  intros Hclaim.
  assert (Hout : NwbPipelineReader.get_sweep_data (H := Demo.plain)
                   Demo.unequal_file 7
                 = Ok (SweepData (Demo.float64 [1e12; 2e12]%float)
                         (Demo.float64 [3e3; 4e3; 5e3]%float)
                         "Amps" (0, 1) 200000%float))
    by (vm_compute; reflexivity).
  specialize (Hclaim _ Hout). discriminate Hclaim.
Qed.

(** C3, amended.  A successful [get_sweep_data] of the reader of converted
    files returns a stimulus and a response of the same length.  The two
    readers of version 1 files do not compare the lengths: the arrays they
    return have the lengths of the stimulus and response arrays the file
    stores (the reader of acquisition files returns these arrays
    themselves). *)
Theorem lengths_of_returned_arrays :
  (forall nwb n out,
      NwbXReader.get_sweep_data nwb n = Ok out ->
      Np.len (stimulus out) = Np.len (response out))
  /\ (forall f n d raw_stimulus raw_response out,
        NwbPipelineReader.locate f n = Ok d ->
        NwbPipelineReader.sample_array (NwbPipelineReader.stimulus_dataset d)
        = Ok raw_stimulus ->
        NwbPipelineReader.sample_array (NwbPipelineReader.response_dataset d)
        = Ok raw_response ->
        NwbPipelineReader.get_sweep_data f n = Ok out ->
        Np.len (stimulus out) = Np.len raw_stimulus
        /\ Np.len (response out) = Np.len raw_response)
  /\ (forall f n l out,
        NwbMiesReader.locate f n = Ok l ->
        NwbMiesReader.get_sweep_data f n = Ok out ->
        stimulus out = NwbMiesReader.stimulus_array l
        /\ response out = NwbMiesReader.response_array l).
Proof.
  split; [|split].
  - intros nwb n out Hout.
    apply get_sweep_data_Ok_X in Hout as (_ & _ & _ & _ & _ & _ & _ & Hlength).
    exact Hlength.
  - exact pipeline_lengths.
  - intros f n l out Hl Hout.
    apply get_sweep_data_Ok_Mies in Hout as (l' & Hl' & Hs & Hr & _).
    rewrite Hl in Hl'. injection Hl' as <-. auto.
Qed.

(** C4, as the claim states it, fails for the reader of pipeline files: the
    index range is the one the file declares, here five samples for a sweep
    that stores two. *)
Lemma pipeline_range_beyond_the_arrays :
  ~ (forall out,
       NwbPipelineReader.get_sweep_data (H := Demo.plain) Demo.overlong_file 7
       = Ok out ->
       valid_index_range out).
Proof.
  intros Hclaim.
  assert (Hout : NwbPipelineReader.get_sweep_data (H := Demo.plain)
                   Demo.overlong_file 7
                 = Ok (SweepData (Demo.float64 [1e12; 2e12]%float)
                         (Demo.float64 [3e3; 4e3]%float)
                         "Amps" (0, 4) 200000%float))
    by (vm_compute; reflexivity).
  destruct (Hclaim _ Hout) as [_ Hend]. simpl in Hend. lia.
Qed.

(** C4, amended.  The reader of converted files returns the index range
    [(0, len(stimulus) - 1)], which satisfies
    [0 <= start <= end < len(stimulus)] whenever the stimulus is not empty.
    The reader of pipeline files returns the range the file declares (of the
    experiment, else of the sweep) without comparing it with the arrays: the
    invariant holds when that range lies within the stimulus array the file
    stores.  The reader of acquisition files returns what the epoch routine
    it calls returns. *)
Theorem index_range_of_returned_arrays :
  (forall nwb n out,
      NwbXReader.get_sweep_data nwb n = Ok out ->
      index_range out = (0, Z.of_nat (Np.len (stimulus out)) - 1)
      /\ (Np.len (stimulus out) <> 0%nat -> valid_index_range out))
  /\ (forall f n d raw_stimulus out start stop,
        NwbPipelineReader.locate f n = Ok d ->
        NwbPipelineReader.sample_array (NwbPipelineReader.stimulus_dataset d)
        = Ok raw_stimulus ->
        NwbPipelineReader.get_sweep_data f n = Ok out ->
        except_KeyError (NwbPipelineReader.experiment_range f n)
          (NwbPipelineReader.declared_range (NwbPipelineReader.swp d))
        = Ok (start, stop) ->
        index_range out = (start, stop)
        /\ (0 <= start <= stop /\ stop < Z.of_nat (Np.len raw_stimulus) ->
            valid_index_range out))
  /\ (forall f n out,
        NwbMiesReader.get_sweep_data f n = Ok out ->
        get_experiment_epoch (stimulus out) (response out) (sampling_rate out)
        = Ok (index_range out)
        \/ get_sweep_epoch (response out) = Ok (index_range out)).
Proof.
  split; [|split].
  - intros nwb n out Hout.
    apply get_sweep_data_Ok_X in Hout
      as (src & sweep & st & _ & Hscan & Hs & Hrange & _).
    assert (Hst : NwbXReader.stimulus_index_range st
                  = (0, Z.of_nat (Np.len (NwbXReader.stimulus_array st)) - 1)).
    { apply (scan_series_stimulus _ _ _ _ _ _ Hscan); [|reflexivity].
      intros st0 Hst0. discriminate Hst0. }
    rewrite Hrange, Hs, Hst. split; [reflexivity|].
    intros Hnonempty. unfold valid_index_range.
    rewrite Hrange, Hs, Hst. simpl. lia.
  - intros f n d raw_stimulus out start stop Hd Hs Hout Hdeclared.
    pose proof (get_sweep_data_Ok f n out Hout)
      as (d' & major & minor & s & r & sweep_range
          & Hd' & _ & Hconvert & _ & _ & Hsweep & _ & Hrange).
    rewrite Hd in Hd'. injection Hd' as <-.
    apply convert_Ok in Hconvert as (raw_s & raw_r & Hraw_s & Hraw_r & _).
    rewrite Hs in Hraw_s. injection Hraw_s as <-.
    destruct (pipeline_lengths f n d raw_stimulus raw_r out Hd Hs Hraw_r Hout)
      as [Hlength _].
    assert (Hir : index_range out = (start, stop)).
    { rewrite Hsweep in Hdeclared.
      rewrite Hdeclared in Hrange. injection Hrange as <-. reflexivity. }
    split; [exact Hir|].
    intros Hvalid. unfold valid_index_range. rewrite Hir, Hlength. simpl. lia.
  - intros f n out Hout. exact (index_range_from_epoch_routine f n out Hout).
Qed.

End AllReaders.

(** ** The theorems on the example files *)

(** Version 1.1: the conversion factors 0.5 and 2 are applied; version 1.0:
    they are not. *)
Lemma conversion_applied_by_version_witness :
  (exists out,
      NwbPipelineReader.get_sweep_data (H := Demo.plain)
        (Demo.sweep7_file ["version"; "1.1"]) 7 = Ok out
      /\ Numpy.imul (H := Demo.plain)
           (Numpy.mul (H := Demo.plain) (Demo.float64 [1; 2]%float) 0.5)
           1e12%float
         = Ok (stimulus out)
      /\ Numpy.imul (H := Demo.plain)
           (Numpy.mul (H := Demo.plain) (Demo.float64 [3; 4]%float) 2)
           1e3%float
         = Ok (response out))
  /\ (exists out,
        NwbPipelineReader.get_sweep_data (H := Demo.plain)
          (Demo.sweep7_file ["version"; "1.0"]) 7 = Ok out
        /\ Numpy.imul (H := Demo.plain) (Demo.float64 [1; 2]%float) 1e12%float
           = Ok (stimulus out)
        /\ Numpy.imul (H := Demo.plain) (Demo.float64 [3; 4]%float) 1e3%float
           = Ok (response out)).
Proof.
  split.
  - eexists. split; [reflexivity|].
    epose proof (conversion_applied_by_version (H := Demo.plain)
                   (Demo.sweep7_file ["version"; "1.1"]) 7 _ 1 1
                   (Demo.float64 [1; 2]%float) (Demo.float64 [3; 4]%float))
      as Hgate.
    edestruct Hgate
      as (k_s & k_r & Hk & Happlied & _); [reflexivity .. |].
    destruct Hk as [[Hk _]|[_ Hunit]]; [|discriminate Hunit].
    injection Hk as -> ->. apply Happlied. lia.
  - eexists. split; [reflexivity|].
    epose proof (conversion_applied_by_version (H := Demo.plain)
                   (Demo.sweep7_file ["version"; "1.0"]) 7 _ 1 0
                   (Demo.float64 [1; 2]%float) (Demo.float64 [3; 4]%float))
      as Hgate.
    edestruct Hgate
      as (k_s & k_r & Hk & _ & Hraw); [reflexivity .. |].
    destruct Hk as [[Hk _]|[_ Hunit]]; [|discriminate Hunit].
    injection Hk as -> ->. apply Hraw. lia.
Defined.

(** The stimulus of sweep 7 is in Amps: the response is multiplied by 10^3
    and the stimulus by 10^12. *)
Lemma rescale_by_unit_witness :
  exists out,
    NwbPipelineReader.get_sweep_data (H := Demo.plain)
      (Demo.sweep7_file ["version"; "1.1"]) 7 = Ok out
    /\ Numpy.imul (H := Demo.plain) (Demo.float64 [6; 8]%float) 1e3%float
       = Ok (response out)
    /\ Numpy.imul (H := Demo.plain) (Demo.float64 [0.5; 1]%float) 1e12%float
       = Ok (stimulus out).
Proof.
  eexists. split; [reflexivity|].
  epose proof (rescale_by_unit (H := Demo.plain)
                 (Demo.sweep7_file ["version"; "1.1"]) 7 _ 1 1
                 (Demo.float64 [0.5; 1]%float) (Demo.float64 [6; 8]%float))
    as Hunit.
  edestruct Hunit
    as (Hamps & _); [reflexivity .. |].
  apply Hamps; reflexivity.
Defined.

(** The same on stored arrays of float32, 0.1 and 0.3: the products are
    those of float32; with a unit that is read as [str], [decode] fails; on
    stored arrays of int16 the products in place fail, unless the conversion
    factors have made floats of them before. *)
Example sweep_of_float32 :
  NwbPipelineReader.get_sweep_data (H := Demo.plain)
    (Examples.float32_file (VBytes "Amps")) 7
  = Ok (SweepData (Floats Float32 [99999997952%float])
                  (Floats Float32 [300%float]) "Amps" (0, 0) 200000%float).
Proof. vm_compute. reflexivity. Qed.

Example sweep_with_a_unit_read_as_str :
  NwbPipelineReader.get_sweep_data (H := Demo.plain)
    (Examples.float32_file (VStr "Amps")) 7
  = Raise AttributeError.
Proof. vm_compute. reflexivity. Qed.

Example sweep_of_int16 :
  NwbPipelineReader.get_sweep_data (H := Demo.plain) (Examples.int16_file "1.0") 7
  = Raise TypeError
  /\ exists out,
       NwbPipelineReader.get_sweep_data (H := Demo.plain)
         (Examples.int16_file "1.1") 7
       = Ok out.
Proof. split; [|eexists]; vm_compute; reflexivity. Qed.

(** A second current clamp series on channel 1 is the error of multiple
    responses. *)
Lemma converted_reader_series_checks_witness :
  NwbXReader.get_sweep_data (H := Demo.plain)
    (Demo.clampex_file [Demo.response7; Demo.feedback7; Demo.stimulus7;
                        Demo.response7]) 7
  = Raise (ValueError MultipleResponse).
Proof.
  edestruct (converted_reader_series_checks (H := Demo.plain)
               (Demo.clampex_file [Demo.response7; Demo.feedback7;
                                   Demo.stimulus7; Demo.response7]) 7)
    as (Hsecond & _); [reflexivity|].
  edestruct (Hsecond [Demo.response7; Demo.feedback7; Demo.stimulus7]
                     Demo.response7 [])
    as (Hresponse & _); [reflexivity .. |].
  apply Hresponse; [reflexivity|].
  exists Demo.response7. split; [left; reflexivity | reflexivity].
Defined.

(** With [Experiment_7] the range is the experiment's, (1, 1); without it
    the call succeeds with the range of the sweep, (0, 1). *)
Lemma index_range_of_experiment_or_sweep_witness :
  (exists out,
      NwbPipelineReader.get_sweep_data (H := Demo.plain) Demo.experiment7_file 7
      = Ok out
      /\ index_range out = (1, 1 + 1 - 1))
  /\ NwbPipelineReader.get_sweep_data (H := Demo.plain)
       (Demo.sweep7_file ["version"; "1.1"]) 7
     = Ok (SweepData (Demo.float64 [5e11; 1e12]%float)
                     (Demo.float64 [6e3; 8e3]%float) "Amps" (0, 1)
                     200000%float).
Proof.
  split.
  - eexists. split; [reflexivity|].
    edestruct (index_range_of_experiment_or_sweep (H := Demo.plain)
                 Demo.experiment7_file 7)
      as (Hsuccess & _); [reflexivity|].
    edestruct Hsuccess
      as (t_0 & t_count & count & a_s & a_c & _ & _ & Hexperiment & _);
      [reflexivity|].
    epose proof (Hexperiment _ Int64 Int64 1 1 _ _) as Hdeclared.
    edestruct Hdeclared as [_ Hexact]; [reflexivity .. |].
    apply Hexact. reflexivity.
  - edestruct (index_range_of_experiment_or_sweep (H := Demo.plain)
                 (Demo.sweep7_file ["version"; "1.1"]) 7)
      as (_ & Hsweep); [reflexivity|].
    eapply (Hsweep 1 1 (Demo.float64 [0.5; 1]%float)
                   (Demo.float64 [6; 8]%float)); reflexivity.
Defined.

(** An experiment that starts at the largest [int32] and counts two
    samples: the end is what numpy makes of the sum, here with the
    wrap-around of [int32]. *)
Example index_range_at_the_int32_limit :
  NwbPipelineReader.get_sweep_data (H := Demo.plain) Examples.int32_limit_file 7
  = Ok (SweepData (Demo.float64 [5e11; 1e12]%float)
                  (Demo.float64 [6e3; 8e3]%float) "Amps"
                  (2147483647, -2147483648) 200000%float).
Proof. vm_compute. reflexivity. Qed.


(** The same ancestry read as an array of [bytes] holds no [str]: the
    unknown clamp mode error. *)
Example ancestry_read_as_bytes :
  NwbMiesReader.get_sweep_data (H := Demo.plain)
    (Demo.mies_file_with
       (VByteStrs ["TimeSeries"; "PatchClampSeries"; "VoltageClampSeries"])) 7
  = Raise (ValueError UnknownClampMode).
Proof. vm_compute. reflexivity. Qed.

(** The converted file: two samples each, and the range (0, 1). *)
Lemma lengths_of_returned_arrays_witness :
  Np.len (stimulus (SweepData (Demo.float64 [0.5; 1]%float)
                      (Demo.float64 [6; 8]%float) "Amps" (0, 1) 20000%float))
  = Np.len (response (SweepData (Demo.float64 [0.5; 1]%float)
                        (Demo.float64 [6; 8]%float) "Amps" (0, 1) 20000%float)).
Proof.
  destruct (lengths_of_returned_arrays (H := Demo.plain)) as (Hconverted & _).
  apply (Hconverted
           (Demo.clampex_file [Demo.response7; Demo.feedback7; Demo.stimulus7])
           7).
  reflexivity.
Defined.

Lemma index_range_of_returned_arrays_witness :
  valid_index_range (SweepData (Demo.float64 [0.5; 1]%float)
                       (Demo.float64 [6; 8]%float) "Amps" (0, 1) 20000%float).
Proof.
  destruct (index_range_of_returned_arrays (H := Demo.plain)) as (Hconverted & _).
  edestruct (Hconverted
               (Demo.clampex_file [Demo.response7; Demo.feedback7; Demo.stimulus7])
               7)
    as (_ & Hvalid); [reflexivity|].
  apply Hvalid. simpl. discriminate.
Defined.

(** * Further properties *)

(** ** Strings and lists *)

Lemma split_without_separator (c : ascii) (s : string) :
  has_char c s = false -> split c s = [s].
Proof.
  induction s as [|a s IH]; simpl; [reflexivity|].
  intros Hs. apply orb_false_iff in Hs as [Ha Hs].
  rewrite Ha, (IH Hs). reflexivity.
Qed.

Lemma split_at_separator (c : ascii) (a s : string) :
  has_char c a = false -> split c (a +:+ String c s) = a :: split c s.
Proof.
  induction a as [|x a IH]; simpl.
  - intros _. rewrite Ascii.eqb_refl. reflexivity.
  - intros Ha. apply orb_false_iff in Ha as [Hx Ha].
    rewrite Hx, (IH Ha). reflexivity.
Qed.

(** The pieces of a string that ends in a separator and [tail]: at least
    two, the last of them [tail]. *)
Lemma split_before_tail (c : ascii) (pre tail : string) :
  has_char c tail = false ->
  exists piece pieces,
    split c (pre +:+ String c tail) = piece :: (pieces ++ [tail])%list.
Proof.
  intros Htail. induction pre as [|a pre (piece & pieces & IH)]; simpl.
  - rewrite Ascii.eqb_refl, (split_without_separator c tail Htail).
    exists EmptyString, []. reflexivity.
  - rewrite IH. destruct (Ascii.eqb a c).
    + exists EmptyString, (piece :: pieces). reflexivity.
    + exists (String a piece), pieces. reflexivity.
Qed.

Lemma list_index_last {A} (l : list A) (x : A) :
  list_index (l ++ [x])%list (-1) = Ok x.
Proof.
  unfold list_index. rewrite length_app. simpl length.
  replace (-1 <? 0) with true by reflexivity.
  replace (-1 + Z.of_nat (length l + 1)) with (Z.of_nat (length l)) by lia.
  rewrite Nat2Z.id.
  replace ((0 <=? Z.of_nat (length l))
           && (Z.of_nat (length l) <? Z.of_nat (length l + 1))) with true
    by (symmetry; apply andb_true_iff; split;
        [apply Z.leb_le | apply Z.ltb_lt]; lia).
  rewrite list_lookup_middle by reflexivity. reflexivity.
Qed.

Lemma has_char_app (c : ascii) (s t : string) :
  has_char c (s +:+ t) = has_char c s || has_char c t.
Proof.
  induction s as [|a s IH]; simpl; [reflexivity|].
  rewrite IH. apply orb_assoc.
Qed.

Lemma pretty_N_char_is_not (c : ascii) (x : N) :
  (forall d, In d ["0"; "1"; "2"; "3"; "4"; "5"; "6"; "7"; "8"; "9"]%char ->
             Ascii.eqb d c = false) ->
  Ascii.eqb (pretty_N_char x) c = false.
Proof.
  intros Hdigits. apply Hdigits. unfold pretty_N_char.
  repeat case_match; simpl; auto 11.
Qed.

Lemma has_char_pretty_N_go (c : ascii) (x : N) (s : string) :
  (forall d, In d ["0"; "1"; "2"; "3"; "4"; "5"; "6"; "7"; "8"; "9"]%char ->
             Ascii.eqb d c = false) ->
  has_char c (pretty_N_go x s) = has_char c s.
Proof.
  intros Hdigits. revert s.
  induction (N.lt_wf_0 x) as [x _ IH]; intros s.
  assert (x = 0 \/ 0 < x)%N as [->|Hpos] by lia.
  - rewrite pretty_N_go_0. reflexivity.
  - rewrite pretty_N_go_step by exact Hpos.
    rewrite IH by (apply N.div_lt; [exact Hpos | reflexivity]).
    simpl. rewrite (pretty_N_char_is_not c _ Hdigits). reflexivity.
Qed.

(** The decimal form of an integer has no underscore. *)
Lemma fmt_d_no_underscore (n : Z) : has_char "_" (fmt_d n) = false.
Proof.
  assert (Hdigits : forall d,
             In d ["0"; "1"; "2"; "3"; "4"; "5"; "6"; "7"; "8"; "9"]%char ->
             Ascii.eqb d "_" = false).
  { intros d Hd. simpl in Hd. intuition (subst; reflexivity). }
  assert (HN : forall x : N, has_char "_" (pretty x) = false).
  { intros x. unfold pretty, pretty_N. case_decide; [reflexivity|].
    rewrite (has_char_pretty_N_go "_" x "" Hdigits). reflexivity. }
  unfold fmt_d, pretty, pretty_Z. destruct n as [|p|p].
  - reflexivity.
  - apply (HN (Npos p)).
  - change (has_char "_" (String "-" (pretty (Npos p))) = false).
    simpl. apply (HN (Npos p)).
Qed.

Lemma zeros_no_underscore (k : nat) : has_char "_" (zeros k) = false.
Proof. induction k as [|k IH]; simpl; [reflexivity | exact IH]. Qed.

Lemma fmt_05d_no_underscore (n : Z) : has_char "_" (fmt_05d n) = false.
Proof.
  unfold fmt_05d. destruct (n <? 0).
  - change (has_char "_" (String "-" (zeros (4 - String.length (pretty (Z.abs n)))
                                       +:+ pretty (Z.abs n))) = false).
    simpl. rewrite has_char_app, zeros_no_underscore.
    apply (fmt_d_no_underscore (Z.abs n)).
  - rewrite has_char_app, zeros_no_underscore.
    apply (fmt_d_no_underscore (Z.abs n)).
Qed.

Lemma list_index_second {A} (a b : A) (l : list A) :
  list_index (a :: b :: l) 1 = Ok b.
Proof.
  unfold list_index. simpl length.
  replace (1 <? 0) with false by reflexivity.
  replace ((0 <=? 1) && (1 <? Z.of_nat (S (S (length l))))) with true
    by (symmetry; apply andb_true_iff; split;
        [apply Z.leb_le | apply Z.ltb_lt]; lia).
  reflexivity.
Qed.

Lemma list_index_first {A} (a : A) (l : list A) :
  list_index (a :: l) 0 = Ok a.
Proof.
  unfold list_index. simpl length.
  replace (0 <? 0) with false by reflexivity.
  replace ((0 <=? 0) && (0 <? Z.of_nat (S (length l)))) with true
    by (symmetry; apply andb_true_iff; split;
        [apply Z.leb_le | apply Z.ltb_lt]; lia).
  reflexivity.
Qed.

(** ** Sweep numbers from sweep names *)

Section SweepNumbers.
Context `{External}.

(** X14.  [NwbPipelineReader.get_sweep_number] parses what follows the last
    underscore of the name, and the whole name when it has no underscore;
    it never fails with [IndexError].  For the name [Sweep_<n>], under which
    [get_sweep_data] looks sweep [n] up, it is [int] of the decimal form of
    [n]. *)
Theorem pipeline_sweep_number_after_last_underscore :
  (forall pre tail,
      has_char "_" tail = false ->
      NwbPipelineReader.get_sweep_number (pre +:+ String "_" tail)
      = py_int tail)
  /\ (forall name,
        has_char "_" name = false ->
        NwbPipelineReader.get_sweep_number name = py_int name)
  /\ (forall n,
        NwbPipelineReader.get_sweep_number ("Sweep_" +:+ fmt_d n)
        = py_int (fmt_d n)).
Proof.
  assert (Hlast : forall pre tail,
             has_char "_" tail = false ->
             NwbPipelineReader.get_sweep_number (pre +:+ String "_" tail)
             = py_int tail).
  { intros pre tail Htail. unfold NwbPipelineReader.get_sweep_number.
    destruct (split_before_tail "_" pre tail Htail) as (piece & pieces & ->).
    rewrite app_comm_cons, (list_index_last (piece :: pieces) tail).
    reflexivity. }
  split; [exact Hlast|]. split.
  - intros name Hname. unfold NwbPipelineReader.get_sweep_number.
    rewrite (split_without_separator "_" name Hname).
    exact (bind_Ok_eq _ _ _ (list_index_last [] name)).
  - intros n. apply (Hlast "Sweep" (fmt_d n)). apply fmt_d_no_underscore.
Qed.

(** X15.  [NwbMiesReader.get_sweep_number] parses the part of the name
    between its first and its second underscore (or after the first, when
    there is one only), and fails with [IndexError] on a name without an
    underscore.  For the names [data_<n, five digits>_AD0] and [..._DA0],
    under which [get_sweep_data] looks sweep [n] up, it is [int] of the
    padded decimal form of [n]. *)
Theorem acquisition_sweep_number_after_first_underscore :
  (forall a b rest,
      has_char "_" a = false ->
      has_char "_" b = false ->
      NwbMiesReader.get_sweep_number (a +:+ String "_" (b +:+ String "_" rest))
      = py_int b)
  /\ (forall a b,
        has_char "_" a = false ->
        has_char "_" b = false ->
        NwbMiesReader.get_sweep_number (a +:+ String "_" b) = py_int b)
  /\ (forall name,
        has_char "_" name = false ->
        NwbMiesReader.get_sweep_number name = Raise IndexError)
  /\ (forall n,
        NwbMiesReader.get_sweep_number ("data_" +:+ fmt_05d n +:+ "_AD0")
        = py_int (fmt_05d n)
        /\ NwbMiesReader.get_sweep_number ("data_" +:+ fmt_05d n +:+ "_DA0")
           = py_int (fmt_05d n)).
Proof.
  assert (Hsecond : forall a b rest,
             has_char "_" a = false ->
             has_char "_" b = false ->
             NwbMiesReader.get_sweep_number
               (a +:+ String "_" (b +:+ String "_" rest))
             = py_int b).
  { intros a b rest Ha Hb. unfold NwbMiesReader.get_sweep_number.
    rewrite (split_at_separator "_" a _ Ha), (split_at_separator "_" b _ Hb).
    rewrite list_index_second. reflexivity. }
  split; [exact Hsecond|]. split; [|split].
  - intros a b Ha Hb. unfold NwbMiesReader.get_sweep_number.
    rewrite (split_at_separator "_" a _ Ha), (split_without_separator "_" b Hb).
    rewrite list_index_second. reflexivity.
  - intros name Hname. unfold NwbMiesReader.get_sweep_number.
    rewrite (split_without_separator "_" name Hname). reflexivity.
  - intros n. split.
    + apply (Hsecond "data" (fmt_05d n) "AD0");
        [reflexivity | apply fmt_05d_no_underscore].
    + apply (Hsecond "data" (fmt_05d n) "DA0");
        [reflexivity | apply fmt_05d_no_underscore].
Qed.

End SweepNumbers.

(** ** The stimulus code, when the description is there *)

Lemma substring_whole (s : string) (m : nat) :
  (String.length s <= m)%nat -> String.substring 0 m s = s.
Proof.
  revert m. induction s as [|c s IH]; intros [|m] Hm; simpl in *;
    try reflexivity; try lia.
  rewrite IH by lia. reflexivity.
Qed.

Lemma substring_split (s : string) (m : nat) :
  (m <= String.length s)%nat ->
  String.substring 0 m s +:+ String.substring m (String.length s - m) s = s.
Proof.
  revert m. induction s as [|c s IH]; intros [|m] Hm.
  - reflexivity.
  - simpl in Hm. lia.
  - simpl. rewrite substring_whole by lia. reflexivity.
  - simpl in Hm.
    change (String c (String.substring 0 m s
                      +:+ String.substring m (String.length s - m) s)
            = String c s).
    rewrite IH by lia. reflexivity.
Qed.

Lemma length_substring_le (s : string) (n m : nat) :
  (String.length (String.substring n m s) <= String.length s)%nat.
Proof.
  revert n m. induction s as [|c s IH]; intros [|n] [|m]; simpl; try lia.
  - specialize (IH 0%nat m). lia.
  - specialize (IH n 0%nat). lia.
  - specialize (IH n (S m)). lia.
Qed.

(** A string that ends with [suffix] is the string without its last
    characters, followed by [suffix]. *)
Lemma endswith_drop_last (s suffix : string) :
  endswith s suffix = true ->
  drop_last (String.length suffix) s +:+ suffix = s.
Proof.
  unfold endswith, drop_last. intros Hends.
  apply String.eqb_eq in Hends.
  assert (Hle : (String.length suffix <= String.length s)%nat).
  { rewrite <- Hends at 1. apply length_substring_le. }
  pose proof (substring_split s (String.length s - String.length suffix))
    as Hsplit.
  replace (String.length s - (String.length s - String.length suffix))%nat
    with (String.length suffix) in Hsplit by lia.
  rewrite Hends in Hsplit. apply Hsplit. lia.
Qed.

Section StimCodeFound.
Context `{External}.

Lemma read_stim_code_found (key : string) (f : h5file) (sweep_name : string)
    (timeseries : node) (members : gmap string node) (a : gmap string h5value)
    (entry : node) :
  getpath (root f) ["acquisition"; "timeseries"] = Ok timeseries ->
  getitem timeseries sweep_name = Ok (Group members a) ->
  members !! key = Some entry ->
  read_stim_code key f sweep_name
  = (stim_code_raw ← value entry;
     stim_code_raw ← first_if_array stim_code_raw;
     let stim_code := py_str stim_code_raw in
     Ok (if endswith stim_code "_DA_0" then drop_last 5 stim_code
         else stim_code)).
Proof.
  intros Hts Hsweep Hkey. unfold read_stim_code.
  rewrite (bind_Ok_eq _ _ _ Hts), (bind_Ok_eq _ _ _ Hsweep). simpl.
  rewrite Hkey. simpl.
  destruct (value entry) as [raw|e]; simpl; [|reflexivity].
  destruct (first_if_array raw) as [first|e]; reflexivity.
Qed.

(** X13.  For both version 1 readers, when the sweep entry has a stimulus
    description entry holding a string (or an array, whose first element
    counts), [get_stim_code] returns [str] of it with one trailing [_DA_0]
    removed: the description is the code returned followed by [_DA_0], or,
    when it does not end so, the code itself.  An empty array is an
    [IndexError], a description entry that is a group an
    [AttributeError]. *)
Theorem stim_code_is_description_without_suffix
    (get_stim_code : h5file -> string -> result string) (key : string)
    (f : h5file) (sweep_name : string) (timeseries : node)
    (members : gmap string node) (a : gmap string h5value) (entry : node) :
  (get_stim_code = NwbPipelineReader.get_stim_code
   /\ key = "aibs_stimulus_description")
  \/ (get_stim_code = NwbMiesReader.get_stim_code
      /\ key = "stimulus_description") ->
  getpath (root f) ["acquisition"; "timeseries"] = Ok timeseries ->
  getitem timeseries sweep_name = Ok (Group members a) ->
  members !! key = Some entry ->
  (forall raw a' description,
      entry = Dataset raw a' ->
      (exists s, raw = VStr s /\ description = py_str (VStr s))
      \/ (exists s rest, raw = VStrs (s :: rest) /\ description = py_str (VStr s)) ->
      exists code,
        get_stim_code f sweep_name = Ok code
        /\ ((endswith description "_DA_0" = true
             /\ description = code +:+ "_DA_0")
            \/ (endswith description "_DA_0" = false /\ code = description)))
  /\ (forall a', entry = Dataset (VStrs []) a' ->
                 get_stim_code f sweep_name = Raise IndexError)
  /\ (forall entries a', entry = Group entries a' ->
                         get_stim_code f sweep_name = Raise AttributeError).
Proof.
  intros Hreader Hts Hsweep Hkey.
  assert (Hcall : get_stim_code f sweep_name = read_stim_code key f sweep_name)
    by (destruct Hreader as [[-> ->]|[-> ->]]; reflexivity).
  rewrite Hcall, (read_stim_code_found key f sweep_name _ _ _ _ Hts Hsweep Hkey).
  split; [|split].
  - intros raw a' description -> Hraw.
    assert (Hcode : (stim_code_raw ← value (Dataset raw a');
                     stim_code_raw ← first_if_array stim_code_raw;
                     let stim_code := py_str stim_code_raw in
                     Ok (if endswith stim_code "_DA_0"
                         then drop_last 5 stim_code else stim_code))
                    = Ok (if endswith description "_DA_0"
                          then drop_last 5 description else description))
      by (destruct Hraw as [(s & -> & ->)|(s & rest & -> & ->)]; reflexivity).
    rewrite Hcode. eexists. split; [reflexivity|].
    destruct (endswith description "_DA_0") eqn:Hends; [left | right; auto].
    split; [reflexivity|].
    symmetry. exact (endswith_drop_last description "_DA_0" Hends).
  - intros a' ->. reflexivity.
  - intros entries a' ->. reflexivity.
Qed.

End StimCodeFound.

(** ** The version descriptor and the reader created *)

Lemma re_match_prefix_true (pattern : string) (v : h5value) :
  re_match_prefix pattern v = Ok true ->
  exists s, v = VStr s /\ startswith s pattern = true.
Proof.
  destruct v as [s| | | | | |]; simpl; try discriminate.
  intros [= Hs]. exists s. auto.
Qed.

Lemma descriptor_full (f : h5file) (d : nwb_version) :
  get_nwb_version f = Ok d ->
  (major d = None <-> full d = None)
  /\ (major d = Some 1 ->
      exists s, full d = Some s /\ startswith s "NWB-1" = true).
Proof.
  unfold get_nwb_version. intros Hd.
  repeat case_bool_decide; binds_inv Hd;
    try (destruct_bool_in Hd); try discriminate Hd;
    injection Hd as <-; simpl;
    try (split; [split; reflexivity|discriminate]).
  match goal with
  | Hm : re_match_prefix _ _ = Ok _ |- _ =>
      apply re_match_prefix_true in Hm as (s & -> & Hs)
  end.
  simpl. split; [split; discriminate | eauto].
Qed.

(** X11.  In every descriptor [get_nwb_version] returns, [full] is unknown
    exactly when [major] is, and with major 1 [full] is the marker read,
    which starts with [NWB-1]. *)
Theorem nwb_version_descriptor (f : h5file) (d : nwb_version) :
  get_nwb_version f = Ok d ->
  (major d = None <-> full d = None)
  /\ (major d = Some 1 ->
      exists s, full d = Some s /\ startswith s "NWB-1" = true).
Proof. exact (descriptor_full f d). Qed.

Lemma get_nwb_version_never_2 (f : h5file) (d : nwb_version) :
  get_nwb_version f = Ok d -> major d <> Some 2.
Proof.
  unfold get_nwb_version. intros Hd.
  repeat case_bool_decide; binds_inv Hd;
    try (destruct_bool_in Hd); try discriminate Hd;
    injection Hd as <-; simpl; discriminate.
Qed.

(** X12.  A version marker stored as an attribute of the file is never
    read: [f.attrs["nwb_version"].value] raises [AttributeError], in
    [get_nwb_version] and so in [create_nwb_reader].  Hence
    [get_nwb_version] never reports major 2 and [create_nwb_reader] never
    creates an [NwbXReader]. *)
Theorem version_2_is_never_detected :
  (forall f,
      root_members f !! "nwb_version" = None ->
      is_Some (root_attrs f !! "nwb_version") ->
      get_nwb_version f = Raise AttributeError
      /\ create_nwb_reader f = Fails (Propagated AttributeError))
  /\ (forall f d, get_nwb_version f = Ok d -> major d <> Some 2)
  /\ (forall f, create_nwb_reader f <> Reader XReader).
Proof.
  split; [|split].
  - intros f Hentry Hattr.
    pose proof (get_nwb_version_attribute f Hentry Hattr) as Hraise.
    split; [exact Hraise|].
    unfold create_nwb_reader. rewrite Hraise. reflexivity.
  - exact get_nwb_version_never_2.
  - intros f. unfold create_nwb_reader.
    destruct (get_nwb_version f) as [d|e] eqn:Hd; [|discriminate].
    apply get_nwb_version_never_2 in Hd.
    rewrite bool_decide_eq_false_2 by exact Hd.
    case_bool_decide; [|discriminate].
    destruct (sweep_naming_convention f) as [convention|e]; [|discriminate].
    repeat (case_match; try discriminate).
Qed.

(** The first piece of a string split at [c]: the string itself when it
    has no [c], else what precedes the first [c]. *)
Lemma split_head (c : ascii) (s : string) :
  exists hd pieces,
    split c s = hd :: pieces
    /\ (s = hd \/ exists tl, s = hd +:+ String c tl).
Proof.
  induction s as [|a s (hd & pieces & Hsplit & Hs)]; simpl.
  - exists EmptyString, []. auto.
  - destruct (Ascii.eqb a c) eqn:Ha.
    + apply Ascii.eqb_eq in Ha. subst a.
      exists EmptyString, (split c s). split; [reflexivity|].
      right. exists s. reflexivity.
    + rewrite Hsplit. exists (String a hd), pieces. split; [reflexivity|].
      destruct Hs as [->|(tl & ->)]; [left; reflexivity|].
      right. exists tl. reflexivity.
Qed.

Lemma split_head_of (c : ascii) (hd s : string) :
  has_char c hd = false ->
  s = hd \/ (exists tl, s = hd +:+ String c tl) ->
  list_index (split c s) 0 = Ok hd.
Proof.
  intros Hhd [->|(tl & ->)].
  - rewrite (split_without_separator c hd Hhd). reflexivity.
  - rewrite (split_at_separator c hd tl Hhd). apply list_index_first.
Qed.

Lemma names_empty {A} : names (∅ : gmap string A) = [].
Proof. unfold names. rewrite map_to_list_empty. reflexivity. Qed.

Lemma sweep_naming_convention_of (f : h5file) (members : gmap string node)
    (a : gmap string h5value) (first : string) (rest : list string) :
  getpath (root f) ["acquisition"; "timeseries"] = Ok (Group members a) ->
  names members = first :: rest ->
  sweep_naming_convention f = list_index (split "_" first) 0.
Proof.
  intros Hts Hnames. unfold sweep_naming_convention.
  rewrite (bind_Ok_eq _ _ _ Hts). simpl. rewrite Hnames.
  rewrite (bind_Ok_eq _ _ _ (list_index_first first rest)). reflexivity.
Qed.

(** X16.  For a file of major version 1, [create_nwb_reader] decides by the
    first name among the entries of [acquisition/timeseries], and by what
    precedes its first underscore: [data] gives an [NwbMiesReader], [Sweep]
    an [NwbPipelineReader], anything else the error of an unknown naming
    convention.  The other entries are not looked at. *)
Theorem reader_by_first_sweep_name (f : h5file) (d : nwb_version)
    (members : gmap string node) (a : gmap string h5value)
    (first : string) (rest : list string) :
  get_nwb_version f = Ok d ->
  major d = Some 1 ->
  getpath (root f) ["acquisition"; "timeseries"] = Ok (Group members a) ->
  names members = first :: rest ->
  (first = "data" \/ (exists tail, first = "data_" +:+ tail) ->
   create_nwb_reader f = Reader MiesReader)
  /\ (first = "Sweep" \/ (exists tail, first = "Sweep_" +:+ tail) ->
      create_nwb_reader f = Reader PipelineReader)
  /\ (~ (first = "data" \/ (exists tail, first = "data_" +:+ tail)) ->
      ~ (first = "Sweep" \/ (exists tail, first = "Sweep_" +:+ tail)) ->
      create_nwb_reader f = Fails UnknownSweepNamingConvention).
Proof.
  intros Hd Hmajor Hts Hnames.
  assert (Hcall : create_nwb_reader f
                  = match list_index (split "_" first) 0 with
                    | Raise e => Fails (Propagated e)
                    | Ok convention =>
                        if String.eqb convention "data" then Reader MiesReader
                        else if String.eqb convention "Sweep"
                             then Reader PipelineReader
                             else Fails UnknownSweepNamingConvention
                    end).
  { unfold create_nwb_reader. rewrite Hd, Hmajor. simpl.
    rewrite (sweep_naming_convention_of f members a first rest Hts Hnames).
    reflexivity. }
  rewrite Hcall. split; [|split].
  - intros Hfirst.
    rewrite (split_head_of "_" "data" first eq_refl Hfirst). reflexivity.
  - intros Hfirst.
    rewrite (split_head_of "_" "Sweep" first eq_refl Hfirst). reflexivity.
  - intros Hdata Hsweep.
    destruct (split_head "_" first) as (hd & pieces & -> & Hfirst).
    rewrite list_index_first.
    destruct (String.eqb hd "data") eqn:Hhd.
    { apply String.eqb_eq in Hhd. subst hd. contradiction. }
    destruct (String.eqb hd "Sweep") eqn:Hhd'.
    { apply String.eqb_eq in Hhd'. subst hd. contradiction. }
    reflexivity.
Qed.

(** X17.  [create_nwb_reader] fails with the unsupported version error on a
    file without a recognised version marker, with [KeyError] on a version 1
    file without [acquisition/timeseries], and with [IndexError] on a
    version 1 file whose [acquisition/timeseries] has no entry. *)
Theorem reader_creation_errors (f : h5file) (d : nwb_version) :
  get_nwb_version f = Ok d ->
  (major d = None ->
   create_nwb_reader f = Fails (UnsupportedNwbVersion None None))
  /\ (major d = Some 1 ->
      getpath (root f) ["acquisition"; "timeseries"] = Raise KeyError ->
      create_nwb_reader f = Fails (Propagated KeyError))
  /\ (major d = Some 1 ->
      (exists a, getpath (root f) ["acquisition"; "timeseries"] = Ok (Group ∅ a)) ->
      create_nwb_reader f = Fails (Propagated IndexError)).
Proof.
  intros Hd.
  pose proof (descriptor_full f d Hd) as (Hfull & _).
  unfold create_nwb_reader. rewrite Hd. split; [|split].
  - intros Hmajor. rewrite (proj1 Hfull Hmajor), Hmajor. reflexivity.
  - intros Hmajor Hts. rewrite Hmajor. simpl.
    unfold sweep_naming_convention. rewrite Hts. reflexivity.
  - intros Hmajor (a & Hts). rewrite Hmajor. simpl.
    unfold sweep_naming_convention. rewrite (bind_Ok_eq _ _ _ Hts). simpl.
    rewrite names_empty. reflexivity.
Qed.

(** ** Sweep names and sweep attributes *)

Lemma elem_of_names {A} (members : gmap string A) (name : string) :
  name ∈ names members <-> is_Some (members !! name).
Proof.
  unfold names. rewrite merge_sort_Permutation.
  rewrite list_elem_of_In, in_map_iff. split.
  - intros ([k v] & <- & Hin). apply list_elem_of_In in Hin.
    apply elem_of_map_to_list in Hin. simpl. eauto.
  - intros [v Hv]. exists (name, v). split; [reflexivity|].
    apply list_elem_of_In, elem_of_map_to_list. exact Hv.
Qed.

Section SweepAttributes.
Context `{External}.

Import NwbReader.

Lemma add_entries_datasets (members : gmap string node)
    (a : gmap string h5value) (entries : list string) :
  forall attrs0,
    Forall (fun e => skipped_entry e
                     \/ exists v a', members !! e = Some (Dataset v a'))
           entries ->
    exists m,
      NwbReader.add_entries (Group members a) entries attrs0 = Ok m
      /\ (forall k v a',
            k ∈ entries -> ~ skipped_entry k ->
            members !! k = Some (Dataset v a') -> m !! k = Some v)
      /\ (forall k, k ∉ entries \/ skipped_entry k -> m !! k = attrs0 !! k).
Proof.
  induction entries as [|e es IH]; intros attrs0 Hall.
  - exists attrs0. split; [reflexivity|]. split.
    + intros k v a' Hk. apply elem_of_nil in Hk. contradiction.
    + reflexivity.
  - apply Forall_cons in Hall as [He Hes]. simpl.
    case_bool_decide as Hskip.
    + destruct (IH attrs0 Hes) as (m & -> & Hin & Hout).
      exists m. split; [reflexivity|]. split.
      * intros k v a' Hk Hnot Hmember.
        apply elem_of_cons in Hk as [->|Hk]; [contradiction|].
        exact (Hin k v a' Hk Hnot Hmember).
      * intros k [Hk|Hk]; apply Hout; [|auto].
        left. intros Hk'. apply Hk. apply elem_of_cons. auto.
    + destruct He as [He|(v & a' & He)]; [contradiction|].
      rewrite He. simpl.
      destruct (IH (<[e := v]> attrs0) Hes) as (m & -> & Hin & Hout).
      exists m. split; [reflexivity|]. split.
      * intros k v0 a0 Hk Hnot Hmember.
        apply elem_of_cons in Hk as [->|Hk].
        -- destruct (decide (e ∈ es)) as [Hees|Hees].
           ++ exact (Hin e v0 a0 Hees Hnot Hmember).
           ++ rewrite Hout by auto. rewrite lookup_insert_eq.
              rewrite He in Hmember. injection Hmember as <- _. reflexivity.
        -- exact (Hin k v0 a0 Hk Hnot Hmember).
      * intros k Hk.
        assert (Hne : e <> k).
        { intros <-. destruct Hk as [Hk|Hk]; [|contradiction].
          apply Hk. apply elem_of_cons. auto. }
        rewrite Hout.
        -- apply lookup_insert_ne. exact Hne.
        -- destruct Hk as [Hk|Hk]; [|auto].
           left. intros Hk'. apply Hk. apply elem_of_cons. auto.
Qed.

Lemma add_entries_group (members : gmap string node)
    (a : gmap string h5value) (entries : list string) :
  forall attrs0,
    Forall (fun e => is_Some (members !! e)) entries ->
    Exists (fun e => ~ skipped_entry e
                     /\ exists entries' a', members !! e = Some (Group entries' a'))
           entries ->
    NwbReader.add_entries (Group members a) entries attrs0 = Raise AttributeError.
Proof.
  induction entries as [|e es IH]; intros attrs0 Hall Hbad.
  - apply Exists_nil in Hbad. contradiction.
  - apply Forall_cons in Hall as [[child He] Hes]. simpl.
    case_bool_decide as Hskip.
    + apply IH; [exact Hes|].
      apply Exists_cons in Hbad as [[Hnot _]|Hbad]; [contradiction | exact Hbad].
    + rewrite He. simpl. destruct child as [v a'|entries' a']; simpl.
      * apply IH; [exact Hes|].
        apply Exists_cons in Hbad as [(_ & entries' & a0 & Hgroup)|Hbad];
          [congruence | exact Hbad].
      * reflexivity.
Qed.

Lemma get_sweep_attrs_of_group (f : h5file) (sweep_name : string)
    (timeseries : node) (members : gmap string node) (a : gmap string h5value) :
  getpath (root f) ["acquisition"; "timeseries"] = Ok timeseries ->
  getitem timeseries sweep_name = Ok (Group members a) ->
  NwbReader.get_sweep_attrs 1 f sweep_name = Ok a
  /\ ((forall k child, members !! k = Some child -> ~ skipped_entry k ->
                       exists v a', child = Dataset v a') ->
      exists m,
        NwbReader.get_sweep_attrs 2 f sweep_name = Ok m
        /\ (forall k v a', ~ skipped_entry k ->
                           members !! k = Some (Dataset v a') -> m !! k = Some v)
        /\ (forall k, members !! k = None \/ skipped_entry k -> m !! k = a !! k))
  /\ ((exists k entries' a', ~ skipped_entry k
                             /\ members !! k = Some (Group entries' a')) ->
      NwbReader.get_sweep_attrs 2 f sweep_name = Raise AttributeError).
Proof.
  intros Hts Hsweep.
  assert (Hcall : forall version,
             NwbReader.get_sweep_attrs version f sweep_name
             = if version =? 2
               then NwbReader.add_entries (Group members a) (names members) a
               else Ok a).
  { intros version. unfold NwbReader.get_sweep_attrs.
    rewrite (bind_Ok_eq _ _ _ Hts), (bind_Ok_eq _ _ _ Hsweep). simpl.
    destruct (version =? 2); reflexivity. }
  rewrite !Hcall. simpl.
  split; [reflexivity|]. split.
  - intros Hdatasets.
    destruct (add_entries_datasets members a (names members) a)
      as (m & Hm & Hin & Hout).
    { apply Forall_forall. intros e He.
      apply elem_of_names in He as [child Hchild].
      destruct (decide (skipped_entry e)) as [Hskip|Hskip]; [left; exact Hskip|].
      right. destruct (Hdatasets e child Hchild Hskip) as (v & a' & ->). eauto. }
    exists m. split; [exact Hm|]. split.
    + intros k v a' Hnot Hmember. apply (Hin k v a'); [|exact Hnot|exact Hmember].
      apply elem_of_names. eauto.
    + intros k [Hk|Hk]; apply Hout; [|auto].
      left. intros Hin'. apply elem_of_names in Hin' as [child Hchild]. congruence.
  - intros (k & entries' & a' & Hnot & Hgroup).
    apply add_entries_group.
    + apply Forall_forall. intros e He. apply elem_of_names. exact He.
    + apply Exists_exists. exists k. split; [|eauto].
      apply elem_of_names. eauto.
Qed.

(** X19.  [get_sweep_attrs] of a version 1 reader returns the attributes of
    the sweep entry.  That of the version 2 reader adds the value of every
    child dataset, except [data] and [electrode], under the child's name,
    where it replaces an attribute of that name; the other attributes are
    kept.  If a child other than [data] and [electrode] is a group, it
    fails with [AttributeError]. *)
Theorem sweep_attrs_of_entry (f : h5file) (sweep_name : string)
    (timeseries : node) (members : gmap string node) (a : gmap string h5value) :
  getpath (root f) ["acquisition"; "timeseries"] = Ok timeseries ->
  getitem timeseries sweep_name = Ok (Group members a) ->
  NwbReader.get_sweep_attrs 1 f sweep_name = Ok a
  /\ ((forall k child, members !! k = Some child -> ~ skipped_entry k ->
                       exists v a', child = Dataset v a') ->
      exists m,
        NwbReader.get_sweep_attrs 2 f sweep_name = Ok m
        /\ (forall k v a', ~ skipped_entry k ->
                           members !! k = Some (Dataset v a') -> m !! k = Some v)
        /\ (forall k, members !! k = None \/ skipped_entry k -> m !! k = a !! k))
  /\ ((exists k entries' a', ~ skipped_entry k
                             /\ members !! k = Some (Group entries' a')) ->
      NwbReader.get_sweep_attrs 2 f sweep_name = Raise AttributeError).
Proof. exact (get_sweep_attrs_of_group f sweep_name timeseries members a). Qed.

Lemma sweep_attrs_of_key (f : h5file) (sweep_name : string)
    (timeseries : node) (members : gmap string node) (a : gmap string h5value)
    (key : string) :
  getpath (root f) ["acquisition"; "timeseries"] = Ok timeseries ->
  getitem timeseries sweep_name = Ok (Group members a) ->
  (forall k child, members !! k = Some child -> ~ skipped_entry k ->
                   exists v a', child = Dataset v a') ->
  ~ skipped_entry key ->
  (attrs ← NwbReader.get_sweep_attrs 2 f sweep_name;
   NwbXReader.dict_getitem attrs key)
  = match members !! key with
    | Some (Dataset v _) => Ok v
    | _ => match a !! key with
           | Some v => Ok v
           | None => Raise KeyError
           end
    end.
Proof.
  intros Hts Hsweep Hdatasets Hkey.
  destruct (get_sweep_attrs_of_group f sweep_name timeseries members a
              Hts Hsweep)
    as (_ & Hv2 & _).
  destruct (Hv2 Hdatasets) as (m & -> & Hin & Hout). simpl.
  unfold NwbXReader.dict_getitem.
  destruct (members !! key) as [child|] eqn:Hchild.
  - destruct (Hdatasets key child Hchild Hkey) as (v & a' & ->).
    rewrite (Hin key v a' Hkey Hchild). reflexivity.
  - rewrite (Hout key) by auto. reflexivity.
Qed.

(** X20.  For a sweep entry whose children, [data] and [electrode] apart,
    are datasets, [get_sweep_number] and [get_stim_code] of [NwbXReader]
    return the value of the child [sweep_number] (or
    [stimulus_description]) when the entry has one, else the attribute of
    that name, and fail with [KeyError] when it has neither. *)
Theorem converted_sweep_number_and_stim_code (f : h5file) (sweep_name : string)
    (timeseries : node) (members : gmap string node) (a : gmap string h5value) :
  getpath (root f) ["acquisition"; "timeseries"] = Ok timeseries ->
  getitem timeseries sweep_name = Ok (Group members a) ->
  (forall k child, members !! k = Some child -> ~ skipped_entry k ->
                   exists v a', child = Dataset v a') ->
  NwbXReader.get_sweep_number f sweep_name
  = match members !! "sweep_number" with
    | Some (Dataset v _) => Ok v
    | _ => match a !! "sweep_number" with
           | Some v => Ok v
           | None => Raise KeyError
           end
    end
  /\ NwbXReader.get_stim_code f sweep_name
     = match members !! "stimulus_description" with
       | Some (Dataset v _) => Ok v
       | _ => match a !! "stimulus_description" with
              | Some v => Ok v
              | None => Raise KeyError
              end
       end.
Proof.
  intros Hts Hsweep Hdatasets. split.
  - apply (sweep_attrs_of_key f sweep_name timeseries members a "sweep_number"
             Hts Hsweep Hdatasets).
    intros [Hk|Hk]; discriminate Hk.
  - apply (sweep_attrs_of_key f sweep_name timeseries members a
             "stimulus_description" Hts Hsweep Hdatasets).
    intros [Hk|Hk]; discriminate Hk.
Qed.


End SweepAttributes.

(** ** The pipeline version, case by case *)

Section PipelineVersionCases.
Context `{External}.

Lemma find_version_first (pre : list string) (v : string) (post : list string) :
  "version" ∉ pre ->
  NwbReader.find_version (pre ++ "version" :: v :: post)%list = Ok (Some v).
Proof.
  induction pre as [|entry pre IH]; intros Hpre; simpl; [reflexivity|].
  apply not_elem_of_cons in Hpre as [Hentry Hpre].
  destruct (String.eqb entry "version") eqn:Heq.
  - apply String.eqb_eq in Heq. congruence.
  - exact (IH Hpre).
Qed.

Lemma find_version_none (entries : list string) :
  "version" ∉ entries -> NwbReader.find_version entries = Ok None.
Proof.
  induction entries as [|entry entries IH]; intros Hnot; simpl; [reflexivity|].
  apply not_elem_of_cons in Hnot as [Hentry Hnot].
  destruct (String.eqb entry "version") eqn:Heq.
  - apply String.eqb_eq in Heq. congruence.
  - exact (IH Hnot).
Qed.

Lemma find_version_last (pre : list string) :
  "version" ∉ pre ->
  NwbReader.find_version (pre ++ ["version"])%list = Raise IndexError.
Proof.
  induction pre as [|entry pre IH]; intros Hpre; simpl; [reflexivity|].
  apply not_elem_of_cons in Hpre as [Hentry Hpre].
  destruct (String.eqb entry "version") eqn:Heq.
  - apply String.eqb_eq in Heq. congruence.
  - exact (IH Hpre).
Qed.

(** The body of the [try] for a file whose [generated_by] is an array of
    [str]. *)
Lemma pipeline_version_body_of_entries (f : h5file)
    (members : gmap string node) (a a' : gmap string h5value)
    (entries : list string) :
  root_members f !! "general" = Some (Group members a) ->
  members !! "generated_by" = Some (Dataset (VStrs entries) a') ->
  NwbReader.pipeline_version_body f
  = (version ← NwbReader.find_version entries;
     match version with
     | None => Raise (UnboundLocalError "version")
     | Some version =>
         let toks := split "." version in
         if (2 <=? length toks)%nat
         then major ← py_int (nth 0 toks "");
              minor ← py_int (nth 1 toks "");
              Ok (Some (major, minor))
         else Ok None
     end).
Proof.
  intros Hgeneral Hgenerated. unfold NwbReader.pipeline_version_body.
  unfold getitem, root, getpath. rewrite Hgeneral. simpl.
  rewrite Hgenerated.
  rewrite bool_decide_eq_true_2 by eauto. simpl.
  destruct (NwbReader.find_version entries) as [[v|]|e]; reflexivity.
Qed.

Lemma pipeline_version_of_entries (f : h5file)
    (members : gmap string node) (a a' : gmap string h5value)
    (pre : list string) (v : string) (post : list string) :
  root_members f !! "general" = Some (Group members a) ->
  members !! "generated_by"
  = Some (Dataset (VStrs (pre ++ "version" :: v :: post)%list) a') ->
  "version" ∉ pre ->
  NwbReader.get_pipeline_version f
  = match split "." v with
    | major :: minor :: _ =>
        match py_int major, py_int minor with
        | Ok x, Ok y => Ok (x, y)
        | _, _ => Ok (0, 0)
        end
    | _ => Raise (UnboundLocalError "major")
    end.
Proof.
  intros Hgeneral Hgenerated Hpre. unfold NwbReader.get_pipeline_version.
  rewrite (pipeline_version_body_of_entries f members a a' _ Hgeneral Hgenerated).
  rewrite (find_version_first pre v post Hpre). simpl.
  destruct (split "." v) as [|major [|minor toks]]; simpl; try reflexivity.
  destruct (py_int major) as [x|e]; simpl; [|reflexivity].
  destruct (py_int minor) as [y|e]; reflexivity.
Qed.

(** X9.  When the entries of [generated_by] are read as [str], the version
    is the entry after the first entry equal to ['version'], at whatever
    position that stands.  Its first two pieces between dots are parsed with
    [int], further pieces are ignored; if either fails to parse the result
    is (0, 0), never a pair with one parsed number; a version with one piece
    only raises [UnboundLocalError].  (Entries read as [bytes] never equal
    ['version']: that case is with the defaults, below.) *)
Theorem pipeline_version_from_entries (f : h5file)
    (members : gmap string node) (a a' : gmap string h5value)
    (pre : list string) (v : string) (post : list string) :
  root_members f !! "general" = Some (Group members a) ->
  members !! "generated_by"
  = Some (Dataset (VStrs (pre ++ "version" :: v :: post)%list) a') ->
  "version" ∉ pre ->
  NwbReader.get_pipeline_version f
  = match split "." v with
    | major :: minor :: _ =>
        match py_int major, py_int minor with
        | Ok x, Ok y => Ok (x, y)
        | _, _ => Ok (0, 0)
        end
    | _ => Raise (UnboundLocalError "major")
    end.
Proof.
  exact (pipeline_version_of_entries f members a a' pre v post).
Qed.

Lemma pipeline_version_without_generated_by (f : h5file) :
  root_members f !! "general" = None
  \/ (exists members a,
         root_members f !! "general" = Some (Group members a)
         /\ members !! "generated_by" = None) ->
  NwbReader.get_pipeline_version f = Ok (0, 0).
Proof.
  intros [Hgeneral|(members & a & Hgeneral & Hgenerated)];
    unfold NwbReader.get_pipeline_version,
      NwbReader.pipeline_version_body, getitem, root;
    rewrite Hgeneral; [reflexivity|].
  simpl. rewrite Hgenerated.
  rewrite bool_decide_eq_false_2 by apply is_Some_None. reflexivity.
Qed.

(** X10.  [get_pipeline_version] returns (0, 0) for a file without
    [general], without [general/generated_by], with a [generated_by] array
    of [str] that has no entry ['version'], with one whose first ['version']
    is its last entry, and with a [generated_by] array that is read as
    [bytes], whatever its entries. *)
Theorem pipeline_version_defaults (f : h5file) :
  (root_members f !! "general" = None ->
   NwbReader.get_pipeline_version f = Ok (0, 0))
  /\ (forall members a,
        root_members f !! "general" = Some (Group members a) ->
        members !! "generated_by" = None ->
        NwbReader.get_pipeline_version f = Ok (0, 0))
  /\ (forall members a entries a',
        root_members f !! "general" = Some (Group members a) ->
        members !! "generated_by" = Some (Dataset (VStrs entries) a') ->
        "version" ∉ entries ->
        NwbReader.get_pipeline_version f = Ok (0, 0))
  /\ (forall members a pre a',
        root_members f !! "general" = Some (Group members a) ->
        members !! "generated_by"
        = Some (Dataset (VStrs (pre ++ ["version"])%list) a') ->
        "version" ∉ pre ->
        NwbReader.get_pipeline_version f = Ok (0, 0))
  /\ (forall members a entries a',
        root_members f !! "general" = Some (Group members a) ->
        members !! "generated_by" = Some (Dataset (VByteStrs entries) a') ->
        NwbReader.get_pipeline_version f = Ok (0, 0)).
Proof.
  split; [|split; [|split; [|split]]].
  - intros Hgeneral. apply pipeline_version_without_generated_by. auto.
  - intros members a Hgeneral Hgenerated.
    apply pipeline_version_without_generated_by. eauto.
  - intros members a entries a' Hgeneral Hgenerated Hnot.
    unfold NwbReader.get_pipeline_version.
    rewrite (pipeline_version_body_of_entries f members a a' _ Hgeneral Hgenerated).
    rewrite (find_version_none entries Hnot). reflexivity.
  - intros members a pre a' Hgeneral Hgenerated Hnot.
    unfold NwbReader.get_pipeline_version.
    rewrite (pipeline_version_body_of_entries f members a a' _ Hgeneral Hgenerated).
    rewrite (find_version_last pre Hnot). reflexivity.
  - intros members a entries a' Hgeneral Hgenerated.
    unfold NwbReader.get_pipeline_version, NwbReader.pipeline_version_body.
    unfold getitem, root, getpath. rewrite Hgeneral. simpl.
    rewrite Hgenerated.
    rewrite bool_decide_eq_true_2 by eauto. reflexivity.
Qed.

Example pipeline_version_of_entries_read_as_bytes :
  NwbReader.get_pipeline_version Examples.bytes_generated_by_file = Ok (0, 0).
Proof. vm_compute. reflexivity. Qed.

End PipelineVersionCases.

(** ** More on NwbPipelineReader.get_sweep_data *)

Section PipelineSweepMore.
Context `{External}.
Import NwbPipelineReader.

(** X8.  A pipeline file without provenance (no [general], or no
    [general/generated_by]) is read as an early one: a successful
    [get_sweep_data] returns the stored arrays without their conversion
    factors, rescaled in place to mV and pA only. *)
Theorem no_provenance_no_conversion (f : h5file) (n : Z) (d : sweep_datasets)
    (raw_stimulus raw_response : ndarray) (out : sweep_data) :
  root_members f !! "general" = None
  \/ (exists members a,
         root_members f !! "general" = Some (Group members a)
         /\ members !! "generated_by" = None) ->
  locate f n = Ok d ->
  sample_array (stimulus_dataset d) = Ok raw_stimulus ->
  sample_array (response_dataset d) = Ok raw_response ->
  get_sweep_data f n = Ok out ->
  exists k_s k_r : float,
    (((k_s, k_r) = (1e12, 1e3)%float /\ stimulus_unit out = "Amps")
     \/ ((k_s, k_r) = (1e3, 1e12)%float /\ stimulus_unit out = "Volts"))
    /\ Numpy.imul raw_stimulus k_s = Ok (stimulus out)
    /\ Numpy.imul raw_response k_r = Ok (response out).
Proof.
  intros Hprovenance Hd Hs Hr Hout.
  pose proof (pipeline_version_without_generated_by f Hprovenance) as Hversion.
  exact (returned_arrays f n d 0 0 raw_stimulus raw_response out
           Hd Hs Hr Hversion Hout).
Qed.

(** X7.  An [Experiment_<n>] entry that lacks its start index or its count
    is treated like a missing one: the [KeyError] of the lookup is caught
    with that of the entry itself, and a successful [get_sweep_data]
    returns the range of the sweep. *)
Theorem incomplete_experiment_is_ignored (f : h5file) (n : Z)
    (d : sweep_datasets) (exp : node) (out : sweep_data) :
  locate f n = Ok d ->
  getitems (root f) ["epochs"; "Experiment_" +:+ fmt_d n] = Ok exp ->
  getitems exp ["stimulus"; "idx_start"] = Raise KeyError
  \/ (exists v a, getitems exp ["stimulus"; "idx_start"] = Ok (Dataset v a)
                  /\ getitems exp ["stimulus"; "count"] = Raise KeyError) ->
  get_sweep_data f n = Ok out ->
  declared_range (swp d) = Ok (index_range out)
  /\ fst (index_range out) = 0.
Proof.
  intros Hd Hexp Hincomplete Hout.
  apply get_sweep_data_Ok in Hout
    as (d' & major & minor & s & r & sweep_range
        & Hd' & _ & _ & _ & _ & Hsweep & Hzero & Hrange).
  rewrite Hd in Hd'. injection Hd' as <-.
  assert (Hraise : experiment_range f n = Raise KeyError).
  { unfold experiment_range. rewrite (bind_Ok_eq _ _ _ Hexp).
    unfold declared_range.
    destruct Hincomplete as [Hstart|(v & a & Hstart & Hcount)].
    - rewrite Hstart. reflexivity.
    - rewrite (bind_Ok_eq _ _ _ Hstart).
      rewrite (bind_Ok_eq (value (Dataset v a)) _ v eq_refl).
      rewrite Hcount. reflexivity. }
  rewrite Hraise in Hrange. simpl in Hrange. injection Hrange as <-.
  auto.
Qed.

(** X21.  [get_sweep_data] does not guard the call of
    [get_pipeline_version]: for a sweep that is there, in a file whose
    [generated_by] is read as an array of [str] and gives a version of one
    piece only (no dot), it fails with the [UnboundLocalError] of that
    call. *)
Theorem sweep_of_file_with_version_of_one_piece (f : h5file) (n : Z)
    (d : sweep_datasets) (members : gmap string node)
    (a a' : gmap string h5value) (pre : list string) (v : string)
    (post : list string) :
  locate f n = Ok d ->
  root_members f !! "general" = Some (Group members a) ->
  members !! "generated_by"
  = Some (Dataset (VStrs (pre ++ "version" :: v :: post)%list) a') ->
  "version" ∉ pre ->
  (length (split "." v) < 2)%nat ->
  get_sweep_data f n = Raise (UnboundLocalError "major").
Proof.
  intros Hd Hgeneral Hgenerated Hpre Hpieces.
  pose proof (pipeline_version_of_entries f members a a' pre v post
                Hgeneral Hgenerated Hpre) as Hversion.
  destruct (split "." v) as [|major [|minor toks]];
    [| |simpl in Hpieces; lia];
    unfold get_sweep_data; rewrite (bind_Ok_eq _ _ _ Hd), Hversion;
    reflexivity.
Qed.

End PipelineSweepMore.

(** The same entries read as [bytes] are not found: the version is (0, 0),
    and the sweep is returned without its conversion factors. *)
Example sweep_of_file_with_entries_read_as_bytes :
  @NwbPipelineReader.get_sweep_data Demo.plain
    Examples.bytes_generated_by_file 7
  = Ok (SweepData (Demo.float64 [1e12; 2e12]%float)
          (Demo.float64 [3e3; 4e3]%float) "Amps" (0, 1) 200000%float).
Proof. vm_compute. reflexivity. Qed.

(** ** Units, and sweeps that are not there *)

Lemma rows_of_other_sweeps (table : list (Z * series)) (n : Z) :
  (forall row, row ∈ table -> fst row <> n) ->
  filter (fun row => fst row = n) table = [].
Proof.
  induction table as [|row table IH]; intros Hrows; [reflexivity|].
  rewrite filter_cons_False by (apply Hrows; apply elem_of_cons; auto).
  apply IH. intros row' Hrow'. apply Hrows. apply elem_of_cons. auto.
Qed.

Section UnitsAndMissingSweeps.
Context `{External}.

Lemma get_long_unit_name_cases (unit_code name : string) :
  get_long_unit_name unit_code = Ok name -> name = "Amps" \/ name = "Volts".
Proof.
  unfold get_long_unit_name. intros Hname.
  repeat (destruct_bool_in Hname; [injection Hname as <-; auto|]).
  discriminate.
Qed.

(** X2.  For a stimulus dataset whose [unit] attribute is a text read as
    [bytes], the two version 1 readers resolve the unit alike:
    [NwbPipelineReader] with [get_long_unit_name], [NwbMiesReader] to the
    same name where that succeeds and with [AssertionError] where that
    raises [ValueError].  A unit that is read as [str] has no [decode]: both
    fail with [AttributeError].  Without the attribute both take the unit as
    ['Unknown']. *)
Theorem unit_names_of_version_1_readers (dataset : node) :
  (forall unit_code,
      attrs dataset !! "unit" = Some (VBytes unit_code) ->
      NwbPipelineReader.unit_name dataset = get_long_unit_name unit_code
      /\ NwbMiesReader.unit_name dataset
         = match get_long_unit_name unit_code with
           | Ok name => Ok name
           | Raise _ => Raise AssertionError
           end)
  /\ (forall unit_code,
        attrs dataset !! "unit" = Some (VStr unit_code) ->
        NwbPipelineReader.unit_name dataset = Raise AttributeError
        /\ NwbMiesReader.unit_name dataset = Raise AttributeError)
  /\ (attrs dataset !! "unit" = None ->
      NwbPipelineReader.unit_name dataset = Ok "Unknown"
      /\ NwbMiesReader.unit_name dataset = Ok "Unknown").
Proof.
  split; [|split].
  - intros unit_code Hunit.
    unfold NwbPipelineReader.unit_name, NwbMiesReader.unit_name,
      has_attr, attr.
    rewrite Hunit. rewrite bool_decide_eq_true_2 by eauto. simpl.
    split; [reflexivity|].
    unfold get_long_unit_name.
    destruct (startswith unit_code "A"); [reflexivity|].
    destruct (startswith unit_code "V"); reflexivity.
  - intros unit_code Hunit.
    unfold NwbPipelineReader.unit_name, NwbMiesReader.unit_name,
      has_attr, attr.
    rewrite Hunit. rewrite bool_decide_eq_true_2 by eauto.
    split; reflexivity.
  - intros Hunit.
    unfold NwbPipelineReader.unit_name, NwbMiesReader.unit_name, has_attr.
    rewrite Hunit. rewrite bool_decide_eq_false_2 by apply is_Some_None.
    split; reflexivity.
Qed.

(** X6.  A sweep number the file does not have: [NwbPipelineReader] and
    [NwbMiesReader] fail with the [KeyError] of the lookup,
    [NwbXReader], for a file of a known source, with the error that no
    series was found. *)
Theorem sweep_that_is_not_there :
  (forall f n members a,
      root_members f !! "epochs" = Some (Group members a) ->
      members !! ("Sweep_" +:+ fmt_d n) = None ->
      NwbPipelineReader.get_sweep_data f n = Raise KeyError)
  /\ (forall f n members a,
        getpath (root f) ["acquisition"; "timeseries"] = Ok (Group members a) ->
        members !! ("data_" +:+ fmt_05d n +:+ "_AD0") = None ->
        NwbMiesReader.get_sweep_data f n = Raise KeyError)
  /\ (forall description table n,
        NwbXReader.unknown (NwbXReader.getRawDataSourceType description) = false ->
        (forall row, row ∈ table -> fst row <> n) ->
        NwbXReader.get_sweep_data (NWBFile (Some description) (Some table)) n
        = Raise (ValueError NoTimeSeriesFound)).
Proof.
  split; [|split].
  - intros f n members a Hepochs Hsweep.
    unfold NwbPipelineReader.get_sweep_data, NwbPipelineReader.locate,
      getitem, root.
    rewrite Hepochs. simpl. rewrite Hsweep. reflexivity.
  - intros f n members a Hts Hsweep.
    unfold NwbMiesReader.get_sweep_data, NwbMiesReader.locate.
    rewrite (bind_Ok_eq _ _ _ Hts). unfold getitem. rewrite Hsweep.
    reflexivity.
  - intros description table n Hknown Hrows.
    unfold NwbXReader.get_sweep_data, NwbXReader.sweep_series. simpl.
    rewrite Hknown. simpl. unfold get_series.
    rewrite (rows_of_other_sweeps table n Hrows). reflexivity.
Qed.

End UnitsAndMissingSweeps.

(** ** More on NwbXReader.get_sweep_data *)

Section ConvertedSweepMore.
Context `{External}.
Import NwbXReader.

(** What the loop has bound when it ends comes from series it kept. *)
Lemma scan_series_found (src : raw_data_source) (l : list series) :
  forall response0 stimulus0 response stimulus,
    scan_series src l response0 stimulus0 = Ok (response, stimulus) ->
    (response = response0
     \/ exists s, In s (retained src l)
                  /\ is_response_series s = true
                  /\ response = Some (Numpy.mul (data s) (conversion s)))
    /\ (stimulus = stimulus0
        \/ exists s name r,
             In s (retained src l)
             /\ is_stimulus_series s = true
             /\ get_long_unit_name (unit s) = Ok name
             /\ rate s = Some r
             /\ stimulus = Some (StimulusVars
                                   (Numpy.mul (data s) (conversion s))
                                   name r (0, num_samples s - 1))).
Proof.
  induction l as [|s l IH]; intros response0 stimulus0 response stimulus Hscan.
  - simpl in Hscan. injection Hscan as <- <-. auto.
  - simpl in Hscan. rewrite retained_cons.
    destruct (skipped src s) as [[|]|e]; simpl in Hscan;
      [exact (IH _ _ _ _ Hscan) | | discriminate].
    destruct (is_response_series s) eqn:Hresponse.
    + destruct response0; [discriminate|].
      apply IH in Hscan as (Hr & Hs). split.
      * right. destruct Hr as [->|(x & Hin & Hx & ->)].
        -- exists s. simpl. auto.
        -- exists x. simpl. auto.
      * destruct Hs as [->|(x & name & r & Hin & Hx)]; [auto|].
        right. exists x, name, r. simpl. tauto.
    + destruct (is_stimulus_series s) eqn:Hstimulus; [|discriminate].
      destruct stimulus0; [discriminate|].
      destruct (get_long_unit_name (unit s)) as [name|e] eqn:Hname;
        [|discriminate].
      destruct (rate s) as [r|] eqn:Hrate; [|discriminate].
      simpl in Hscan. apply IH in Hscan as (Hr & Hs). split.
      * destruct Hr as [->|(x & Hin & Hx)]; [auto|].
        right. exists x. simpl. tauto.
      * right. destruct Hs as [->|(x & name' & r' & Hin & Hx)].
        -- exists s, name, r. simpl. auto.
        -- exists x, name', r'. simpl. tauto.
Qed.

Lemma converted_sweep_contents (nwb : nwbfile) (n : Z) (out : sweep_data) :
  get_sweep_data nwb n = Ok out ->
  exists src sweep s_stimulus s_response,
    sweep_series nwb n = Ok (src, sweep)
    /\ In s_stimulus (retained src sweep)
    /\ is_stimulus_series s_stimulus = true
    /\ In s_response (retained src sweep)
    /\ is_response_series s_response = true
    /\ stimulus out = Numpy.mul (data s_stimulus) (conversion s_stimulus)
    /\ response out = Numpy.mul (data s_response) (conversion s_response)
    /\ get_long_unit_name (unit s_stimulus) = Ok (stimulus_unit out)
    /\ rate s_stimulus = Some (sampling_rate out)
    /\ index_range out = (0, num_samples s_stimulus - 1).
Proof.
  unfold get_sweep_data. intros Hout.
  bind_inv Hout opened Hopened. destruct opened as [src sweep].
  bind_inv Hout found Hfound. destruct found as [response stimulus].
  destruct stimulus as [st|]; [|discriminate].
  destruct response as [response|]; [|discriminate].
  bind_inv Hout u Hassert. injection Hout as <-. simpl.
  apply scan_series_found in Hfound as (Hr & Hs).
  destruct Hr as [Hr|(s_response & Hin_r & His_r & Hr)]; [discriminate|].
  destruct Hs as [Hs|(s_stimulus & name & r & Hin_s & His_s & Hname & Hrate & Hs)];
    [discriminate|].
  injection Hr as ->. injection Hs as ->. simpl.
  exists src, sweep, s_stimulus, s_response. repeat split; assumption.
Qed.

(** X3.  What a successful [get_sweep_data] of [NwbXReader] returns: the
    data of the stimulus series and of the response series of the sweep,
    each multiplied by its own conversion factor (numpy's product of the
    array and the factor: the binary64 product for float64 data), the unit
    name of the stimulus series' unit, its rate, and the index range from 0
    to its last sample. *)
Theorem converted_sweep_is_its_two_series (nwb : nwbfile) (n : Z)
    (out : sweep_data) :
  get_sweep_data nwb n = Ok out ->
  exists src sweep s_stimulus s_response,
    sweep_series nwb n = Ok (src, sweep)
    /\ In s_stimulus (retained src sweep)
    /\ is_stimulus_series s_stimulus = true
    /\ In s_response (retained src sweep)
    /\ is_response_series s_response = true
    /\ stimulus out = Numpy.mul (data s_stimulus) (conversion s_stimulus)
    /\ response out = Numpy.mul (data s_response) (conversion s_response)
    /\ get_long_unit_name (unit s_stimulus) = Ok (stimulus_unit out)
    /\ rate s_stimulus = Some (sampling_rate out)
    /\ index_range out = (0, num_samples s_stimulus - 1).
Proof. exact (converted_sweep_contents nwb n out). Qed.

(** The series of the rows of sweep [n]. *)
Lemma get_series_rows (table : list (Z * series)) (n : Z) :
  get_series table n
  = match map snd (filter (fun row => fst row = n) table) with
    | [] => None
    | matches => Some matches
    end.
Proof. reflexivity. Qed.

Lemma scan_series_skip (src : raw_data_source) (pre : list series) (s : series)
    (post : list series) :
  skipped src s = Ok true ->
  forall response stimulus,
    scan_series src (pre ++ s :: post)%list response stimulus
    = scan_series src (pre ++ post)%list response stimulus.
Proof.
  intros Hskip response stimulus.
  rewrite !scan_series_app.
  destruct (scan_series src pre response stimulus) as [[r st]|e]; simpl;
    [|reflexivity].
  rewrite Hskip. reflexivity.
Qed.

(** X4.  In a file converted from ABF, a series on channel 5 (the feedback
    channel) does not count: taking its row out of the sweep table leaves
    the outcome of [get_sweep_data] for its sweep as it is, as long as the
    sweep keeps another row. *)
Theorem feedback_series_do_not_count (description : string)
    (before : list (Z * series)) (s : series) (after : list (Z * series))
    (n : Z) :
  abf (getRawDataSourceType description) = true ->
  description_number (Pynwb.description s) = Ok 5 ->
  get_series (before ++ after)%list n <> None ->
  get_sweep_data
    (NWBFile (Some description) (Some (before ++ (n, s) :: after)%list)) n
  = get_sweep_data (NWBFile (Some description) (Some (before ++ after)%list)) n.
Proof.
  intros Habf Hchannel Hrows.
  assert (Hskip : skipped (getRawDataSourceType description) s = Ok true).
  { unfold skipped. rewrite Habf, Hchannel. reflexivity. }
  unfold get_sweep_data, sweep_series. simpl.
  destruct (assert (negb (unknown (getRawDataSourceType description))))
    as [u|e]; simpl; [|reflexivity].
  rewrite !get_series_rows in *.
  rewrite !filter_app, !map_app in *.
  rewrite filter_cons_True by reflexivity. simpl map.
  set (l1 := map snd (filter (fun row => fst row = n) before)) in *.
  set (l2 := map snd (filter (fun row => fst row = n) after)) in *.
  destruct (l1 ++ s :: l2)%list as [|x xs] eqn:Hwith;
    [destruct l1; discriminate|].
  destruct (l1 ++ l2)%list as [|y ys] eqn:Hwithout; [contradiction|].
  rewrite <- Hwith, <- Hwithout. simpl.
  rewrite (scan_series_skip _ l1 s l2 Hskip). reflexivity.
Qed.

(** X22.  The checks on the source of the file and on the channel.  The
    source is exactly one of ABF, DAT and unknown; for an unknown source
    [get_sweep_data] fails with [AssertionError] whatever the sweep; for a
    source that is not ABF every series of the sweep is kept, its
    description unread; for ABF the first series on a channel other than 1
    and 5 is the error of an unexpected channel number. *)
Theorem source_and_channel_checks :
  (forall description,
      let src := getRawDataSourceType description in
      (abf src, dat src, unknown src) = (true, false, false)
      \/ (abf src, dat src, unknown src) = (false, true, false)
      \/ (abf src, dat src, unknown src) = (false, false, true))
  /\ (forall description table n,
        unknown (getRawDataSourceType description) = true ->
        get_sweep_data (NWBFile (Some description) table) n
        = Raise AssertionError)
  /\ (forall src sweep, abf src = false -> retained src sweep = sweep)
  /\ (forall nwb n src pre s post response stimulus c,
        sweep_series nwb n = Ok (src, (pre ++ s :: post)%list) ->
        scan_series src pre None None = Ok (response, stimulus) ->
        abf src = true ->
        description_number (Pynwb.description s) = Ok c ->
        c <> 1 -> c <> 5 ->
        get_sweep_data nwb n = Raise (ValueError (UnexpectedChannelNumber c))).
Proof.
  split; [|split; [|split]].
  - intros description. unfold getRawDataSourceType.
    destruct (startswith description "PatchMaster"); simpl; [auto|].
    destruct (startswith description "Clampex"); simpl; auto.
  - intros description table n Hunknown.
    unfold get_sweep_data, sweep_series. simpl. rewrite Hunknown. reflexivity.
  - intros src sweep Habf. unfold retained.
    induction sweep as [|s sweep IH]; simpl; [reflexivity|].
    unfold skipped at 1. rewrite Habf. rewrite IH. reflexivity.
  - intros nwb n src pre s post response stimulus c
      Hopened Hpre Habf Hchannel Hc1 Hc5.
    apply (get_sweep_data_at nwb n src pre s post response stimulus Hopened Hpre).
    simpl. unfold skipped. rewrite Habf, Hchannel. simpl.
    rewrite bool_decide_eq_false_2 by (intros [?|?]; contradiction).
    reflexivity.
Qed.

End ConvertedSweepMore.

Section ConvertedSweepOrder.
Context `{External}.
Import NwbXReader.

(** A loop that succeeds on a list succeeds, with the same variables, on
    every rearrangement of the list. *)
Lemma scan_series_Permutation (src : raw_data_source) (l l' : list series) :
  l ≡ₚ l' ->
  forall response stimulus found,
    scan_series src l response stimulus = Ok found ->
    scan_series src l' response stimulus = Ok found.
Proof.
  induction 1 as [|x l l' Hperm IH|x y l|l l' l'' _ IH1 _ IH2];
    intros response stimulus found Hscan.
  - exact Hscan.
  - simpl in *.
    destruct (skipped src x) as [[|]|e]; simpl in *; [auto | | discriminate].
    destruct (is_response_series x).
    + destruct response; [discriminate | auto].
    + destruct (is_stimulus_series x); [|discriminate].
      destruct stimulus; [discriminate|].
      destruct (get_long_unit_name (unit x)); simpl in *; [|discriminate].
      destruct (rate x); simpl in *; [auto | discriminate].
  - simpl in *.
    repeat match goal with
           | Hs : context [match ?e with _ => _ end] |- _ =>
               destruct e eqn:?; simpl in *; try discriminate
           | Hs : context [mbind _ ?e] |- _ =>
               destruct e eqn:?; simpl in *; try discriminate
           end;
      repeat match goal with
             | Hx : ?e = _ |- context [?e] => rewrite Hx; simpl
             end;
      try assumption; try congruence.
  - auto.
Qed.

Lemma sweep_series_Permutation (description : option string)
    (table table' : list (Z * series)) (n : Z) (src : raw_data_source)
    (sweep : list series) :
  table ≡ₚ table' ->
  sweep_series (NWBFile description (Some table)) n = Ok (src, sweep) ->
  exists sweep',
    sweep ≡ₚ sweep'
    /\ sweep_series (NWBFile description (Some table')) n = Ok (src, sweep').
Proof.
  intros Hperm Hopened.
  assert (Hrows : map snd (filter (fun row => fst row = n) table)
                  ≡ₚ map snd (filter (fun row => fst row = n) table')).
  { apply Permutation_map. rewrite Hperm. reflexivity. }
  unfold sweep_series in *. simpl in *.
  destruct description as [d|]; simpl in *; [|discriminate Hopened].
  destruct (assert (negb (unknown (getRawDataSourceType d)))) as [u|e];
    simpl in *; [|discriminate Hopened].
  rewrite get_series_rows in *.
  destruct (map snd (filter (fun row => fst row = n) table)) as [|x l] eqn:Hl;
    [discriminate Hopened|].
  destruct (map snd (filter (fun row => fst row = n) table')) as [|x' l'] eqn:Hl'.
  { apply Permutation_nil_r in Hrows. discriminate Hrows. }
  injection Hopened as <- <-. exists (x' :: l'). auto.
Qed.

(** X5.  The order of the rows of the sweep table does not matter to a
    successful [get_sweep_data]: on a file whose table holds the same rows
    in another order, the call succeeds with the same result. *)
Theorem row_order_does_not_matter (description : option string)
    (table table' : list (Z * series)) (n : Z) (out : sweep_data) :
  table ≡ₚ table' ->
  get_sweep_data (NWBFile description (Some table)) n = Ok out ->
  get_sweep_data (NWBFile description (Some table')) n = Ok out.
Proof.
  intros Hperm Hout. unfold get_sweep_data in *.
  bind_inv Hout opened Hopened. destruct opened as [src sweep].
  bind_inv Hout found Hfound.
  destruct (sweep_series_Permutation _ _ _ _ _ _ Hperm Hopened)
    as (sweep' & Hsweep & Hopened').
  rewrite (bind_Ok_eq _ _ _ Hopened'). simpl.
  rewrite (bind_Ok_eq _ _ _
             (scan_series_Permutation _ _ _ Hsweep _ _ _ Hfound)).
  exact Hout.
Qed.

End ConvertedSweepOrder.

(** ** The unit name a reader returns *)

Section ReturnedUnits.
Context `{External}.

(** X1.  The stimulus unit a successful [get_sweep_data] returns is Amps
    or Volts for [NwbXReader] and [NwbPipelineReader]; [NwbMiesReader]
    alone can return Unknown, and does so exactly when the stimulus data
    has no [unit] attribute. *)
Theorem stimulus_unit_of_each_reader :
  (forall nwb n out,
      NwbXReader.get_sweep_data nwb n = Ok out ->
      stimulus_unit out = "Amps" \/ stimulus_unit out = "Volts")
  /\ (forall f n out,
        NwbPipelineReader.get_sweep_data f n = Ok out ->
        stimulus_unit out = "Amps" \/ stimulus_unit out = "Volts")
  /\ (forall f n l stimulus_data out,
        NwbMiesReader.locate f n = Ok l ->
        getitem (NwbMiesReader.sweep_stimulus l) "data" = Ok stimulus_data ->
        NwbMiesReader.get_sweep_data f n = Ok out ->
        (stimulus_unit out = "Amps" \/ stimulus_unit out = "Volts"
         \/ stimulus_unit out = "Unknown")
        /\ (stimulus_unit out = "Unknown"
            <-> has_attr stimulus_data "unit" = false)).
Proof.
  split; [|split].
  - intros nwb n out Hout.
    apply converted_sweep_contents in Hout
      as (src & sweep & s_stimulus & s_response & _ & _ & _ & _ & _ & _ & _
          & Hname & _).
    exact (get_long_unit_name_cases _ _ Hname).
  - intros f n out Hout.
    apply get_sweep_data_Ok in Hout
      as (d & major & minor & s & r & sweep_range
          & _ & _ & _ & _ & Hrescale & _).
    apply rescale_Ok in Hrescale as [(-> & _)|(-> & _)]; auto.
  - intros f n l stimulus_data out Hl Hdata Hout.
    unfold NwbMiesReader.get_sweep_data in Hout.
    rewrite (bind_Ok_eq _ _ _ Hl), (bind_Ok_eq _ _ _ Hdata) in Hout.
    bind_inv Hout unit_str Hunit. bind_inv Hout range Hrange.
    injection Hout as <-. simpl.
    unfold NwbMiesReader.unit_name in Hunit.
    destruct (has_attr stimulus_data "unit").
    + binds_inv Hunit.
      repeat match type of Hunit with
             | context [startswith ?u ?p] => destruct (startswith u p)
             end;
        simpl in Hunit; try discriminate Hunit;
        injection Hunit as <-; (split; [auto | split; discriminate]).
    + injection Hunit as <-. split; [auto | split; reflexivity].
Qed.

End ReturnedUnits.

(** ** The further properties on example files *)

Lemma entries_are_datasets (l : list (string * node)) :
  Forall (fun p => NwbReader.skipped_entry p.1 \/ exists v a, p.2 = Dataset v a) l ->
  forall k child,
    (list_to_map l : gmap string node) !! k = Some child ->
    ~ NwbReader.skipped_entry k ->
    exists v a', child = Dataset v a'.
Proof.
  intros Hl k child Hk Hkept.
  apply elem_of_list_to_map_2 in Hk.
  rewrite Forall_forall in Hl.
  destruct (Hl _ Hk) as [Hskipped|Hdataset]; [contradiction | exact Hdataset].
Qed.

Lemma converted_entries_are_datasets :
  Forall (fun p => NwbReader.skipped_entry p.1 \/ exists v a, p.2 = Dataset v a)
         Examples.converted_entries.
Proof.
  unfold Examples.converted_entries, NwbReader.skipped_entry.
  repeat (apply Forall_cons; split; [simpl; eauto|]).
  apply Forall_nil_2.
Qed.

(** Sweep 7 of a file converted from ABF is its stimulus on channel 1 and
    its response. *)
Lemma converted_sweep_is_its_two_series_witness :
  exists out,
    NwbXReader.get_sweep_data (H := Demo.plain)
      (Demo.clampex_file [Demo.response7; Demo.feedback7; Demo.stimulus7]) 7
    = Ok out
    /\ exists src sweep s_stimulus s_response,
         NwbXReader.sweep_series
           (Demo.clampex_file [Demo.response7; Demo.feedback7; Demo.stimulus7]) 7
         = Ok (src, sweep)
         /\ In s_stimulus (NwbXReader.retained (H := Demo.plain) src sweep)
         /\ NwbXReader.is_stimulus_series s_stimulus = true
         /\ In s_response (NwbXReader.retained (H := Demo.plain) src sweep)
         /\ NwbXReader.is_response_series s_response = true
         /\ stimulus out
            = Numpy.mul (H := Demo.plain)
                (Pynwb.data s_stimulus) (Pynwb.conversion s_stimulus)
         /\ response out
            = Numpy.mul (H := Demo.plain)
                (Pynwb.data s_response) (Pynwb.conversion s_response)
         /\ get_long_unit_name (Pynwb.unit s_stimulus) = Ok (stimulus_unit out)
         /\ Pynwb.rate s_stimulus = Some (sampling_rate out)
         /\ index_range out = (0, Pynwb.num_samples s_stimulus - 1).
Proof.
  eexists. split; [reflexivity|].
  apply (converted_sweep_is_its_two_series (H := Demo.plain)).
  reflexivity.
Defined.

(** The feedback series of sweep 7 can be left out. *)
Lemma feedback_series_do_not_count_witness :
  NwbXReader.get_sweep_data (H := Demo.plain)
    (Demo.clampex_file [Demo.response7; Demo.feedback7; Demo.stimulus7]) 7
  = NwbXReader.get_sweep_data (H := Demo.plain)
      (Demo.clampex_file [Demo.response7; Demo.stimulus7]) 7.
Proof.
  apply (feedback_series_do_not_count (H := Demo.plain) "Clampex 10.7"
           [(7, Demo.response7)] Demo.feedback7 [(7, Demo.stimulus7)] 7);
    [reflexivity | reflexivity | discriminate].
Defined.

(** The stimulus before the response, or after it. *)
Lemma row_order_does_not_matter_witness :
  exists out,
    NwbXReader.get_sweep_data (H := Demo.plain)
      (Demo.clampex_file [Demo.response7; Demo.stimulus7]) 7 = Ok out
    /\ NwbXReader.get_sweep_data (H := Demo.plain)
         (Demo.clampex_file [Demo.stimulus7; Demo.response7]) 7 = Ok out.
Proof.
  eexists. split; [reflexivity|].
  apply (row_order_does_not_matter (H := Demo.plain) (Some "Clampex 10.7")
           [(7, Demo.response7); (7, Demo.stimulus7)]
           [(7, Demo.stimulus7); (7, Demo.response7)] 7);
    [apply perm_swap | reflexivity].
Defined.

(** [Experiment_7] without a count: the range is the sweep's. *)
Lemma incomplete_experiment_is_ignored_witness :
  exists out,
    NwbPipelineReader.get_sweep_data (H := Demo.plain)
      Examples.incomplete_experiment_file 7 = Ok out
    /\ fst (index_range out) = 0.
Proof.
  eexists. split; [reflexivity|].
  epose proof (incomplete_experiment_is_ignored (H := Demo.plain)
                 Examples.incomplete_experiment_file 7 _ _ _) as Hignored.
  edestruct Hignored as [_ Hfirst];
    [ reflexivity | reflexivity
    | right; eexists; eexists; split; reflexivity
    | reflexivity | exact Hfirst ].
Defined.

(** A file without [general]: the conversion factors 0.5 and 2 are not
    applied. *)
Lemma no_provenance_no_conversion_witness :
  exists out,
    NwbPipelineReader.get_sweep_data (H := Demo.plain)
      Examples.unversioned_file 7 = Ok out
    /\ Numpy.imul (H := Demo.plain) (Demo.float64 [1; 2]%float) 1e12%float
       = Ok (stimulus out)
    /\ Numpy.imul (H := Demo.plain) (Demo.float64 [3; 4]%float) 1e3%float
       = Ok (response out).
Proof.
  eexists. split; [reflexivity|].
  epose proof (no_provenance_no_conversion (H := Demo.plain)
                 Examples.unversioned_file 7 _ (Demo.float64 [1; 2]%float)
                 (Demo.float64 [3; 4]%float) _)
    as Hraw.
  edestruct Hraw as (k_s & k_r & Hk & Hstimulus & Hresponse);
    [left; reflexivity | reflexivity .. |].
  destruct Hk as [[Hk _]|[_ Hunit]]; [|discriminate Hunit].
  injection Hk as -> ->. split; assumption.
Defined.

(** The version 1.2.3 after two other entries is (1, 2). *)
Lemma pipeline_version_from_entries_witness :
  NwbReader.get_pipeline_version (H := Demo.plain)
    (Demo.generated_by_file ["pipeline"; "ephys"; "version"; "1.2.3"])
  = Ok (1, 2).
Proof.
  apply (pipeline_version_from_entries (H := Demo.plain)
           (Demo.generated_by_file ["pipeline"; "ephys"; "version"; "1.2.3"])
           {[ "generated_by" :=
                Dataset (VStrs ["pipeline"; "ephys"; "version"; "1.2.3"]) ∅ ]}
           ∅ ∅ ["pipeline"; "ephys"] "1.2.3" []);
    [reflexivity | reflexivity | ].
  intros Hin. repeat (apply elem_of_cons in Hin as [Hin|Hin]; [discriminate|]).
  apply elem_of_nil in Hin. exact Hin.
Defined.

(** Sweep 7 of a file of version 1, without a minor version. *)
Lemma sweep_of_file_with_version_of_one_piece_witness :
  NwbPipelineReader.get_sweep_data (H := Demo.plain)
    (Demo.sweep7_file ["version"; "1"]) 7
  = Raise (UnboundLocalError "major").
Proof.
  eapply (sweep_of_file_with_version_of_one_piece (H := Demo.plain)
            (Demo.sweep7_file ["version"; "1"]) 7 _ _ _ _ [] "1" []);
    [reflexivity | reflexivity | reflexivity | apply not_elem_of_nil
    | simpl; lia ].
Defined.

Lemma nwb_version_descriptor_witness :
  (major (NwbVersion (Some 1) (Some "NWB-1.0.5")) = None
   <-> full (NwbVersion (Some 1) (Some "NWB-1.0.5")) = None)
  /\ (major (NwbVersion (Some 1) (Some "NWB-1.0.5")) = Some 1 ->
      exists s, full (NwbVersion (Some 1) (Some "NWB-1.0.5")) = Some s
                /\ startswith s "NWB-1" = true).
Proof.
  apply (nwb_version_descriptor Demo.version1_file). reflexivity.
Defined.

(** The description of [Sweep_3] without its ending. *)
Lemma stim_code_is_description_without_suffix_witness :
  exists code,
    NwbPipelineReader.get_stim_code (H := Demo.plain)
      Examples.described_file "Sweep_3" = Ok code
    /\ "C1LSFINEST150112_DA_0" = code +:+ "_DA_0".
Proof.
  epose proof (stim_code_is_description_without_suffix (H := Demo.plain)
                 NwbPipelineReader.get_stim_code "aibs_stimulus_description"
                 Examples.described_file "Sweep_3" _ _ _ _) as Hcode.
  edestruct Hcode as (Hfound & _);
    [left; split; reflexivity | reflexivity | reflexivity | reflexivity |].
  edestruct (Hfound (VStr "C1LSFINEST150112_DA_0") ∅ "C1LSFINEST150112_DA_0")
    as (code & Hcall & [[_ Hends]|[Hends _]]);
    [ reflexivity | left; eexists; split; reflexivity
    | exists code; split; [exact Hcall | exact Hends]
    | discriminate Hends ].
Defined.

(** The entries [Sweep_10] and [Sweep_3]: the first name is [Sweep_10]. *)
Lemma reader_by_first_sweep_name_witness :
  create_nwb_reader Examples.described_file = Reader PipelineReader.
Proof.
  epose proof (reader_by_first_sweep_name Examples.described_file
                 _ _ _ "Sweep_10" ["Sweep_3"]) as Hreader.
  edestruct Hreader as (_ & Hpipeline & _);
    [reflexivity | reflexivity | reflexivity | reflexivity |].
  apply Hpipeline. right. exists "10". reflexivity.
Defined.

(** A file without a version marker. *)
Lemma reader_creation_errors_witness :
  create_nwb_reader (File ∅ ∅) = Fails (UnsupportedNwbVersion None None).
Proof.
  edestruct (reader_creation_errors (File ∅ ∅)) as (Hnone & _);
    [reflexivity|].
  apply Hnone. reflexivity.
Defined.


(** The sweep of a converted file: the attributes, and the entry
    [sweep_number] over the attribute of that name. *)
Lemma sweep_attrs_of_entry_witness :
  NwbReader.get_sweep_attrs 1 Examples.converted_file "index_000"
  = Ok Examples.converted_attrs
  /\ exists m,
       NwbReader.get_sweep_attrs 2 Examples.converted_file "index_000" = Ok m
       /\ m !! "sweep_number" = Some (VInt UInt64 7)
       /\ m !! "description" = Some (VStr "PLACEHOLDER").
Proof.
  epose proof (sweep_attrs_of_entry Examples.converted_file "index_000"
                 _ (list_to_map Examples.converted_entries)
                 Examples.converted_attrs) as Hattrs.
  edestruct Hattrs as (Hversion1 & Hversion2 & _); [reflexivity .. |].
  split; [exact Hversion1|].
  destruct (Hversion2 (entries_are_datasets _ converted_entries_are_datasets))
    as (m & Hcall & Hentries & Hothers).
  exists m. split; [exact Hcall|]. split.
  - apply (Hentries "sweep_number" (VInt UInt64 7) ∅); [|reflexivity].
    unfold NwbReader.skipped_entry. intros [?|?]; discriminate.
  - rewrite (Hothers "description"); [reflexivity | left; reflexivity].
Defined.

Lemma converted_sweep_number_and_stim_code_witness :
  NwbXReader.get_sweep_number Examples.converted_file "index_000" = Ok (VInt UInt64 7)
  /\ NwbXReader.get_stim_code Examples.converted_file "index_000"
     = Ok (VStr "C1LSFINEST150112").
Proof.
  epose proof (converted_sweep_number_and_stim_code Examples.converted_file
                 "index_000" _ (list_to_map Examples.converted_entries)
                 Examples.converted_attrs) as Hcalls.
  apply Hcalls;
    [reflexivity | reflexivity
    | exact (entries_are_datasets _ converted_entries_are_datasets)].
Defined.
